(** * Moodify: the prediction view and its response normalizer

    A shallow embedding of the three variants of the page component [Home]:
    - [Live]    : src/pages/index.tsx, first component (real backend call,
                  response validation and prediction-to-score conversion);
    - [Mock]    : src/pages/index.tsx, second component (simulated call);
    - [Premium] : src/unnamed/part_000 (real backend call, body stored as is).

    React state hooks become record fields, an [async] function becomes the
    part that runs before its first [await] and the part that runs when the
    awaited promise settles, and [try/catch/finally] becomes a sum type. A
    render can throw as well; no error boundary is in these files, so that
    the page is then unmounted, and the states of a page are those reached
    by renders that do not throw. *)

From Stdlib Require Import ZArith NArith Bool List String Ascii Lia.
From Stdlib Require Import DecimalString.
From Stdlib Require Import Floats.SpecFloat.
Import ListNotations.
Local Open Scope string_scope.

(** ** The host language: numbers, strings, JSON values, thrown values *)

Module JS.

(** *** Numbers: IEEE 754 binary64 *)

Definition prec : Z := 53.
Definition emax : Z := 1024.

Definition number : Type := spec_float.

Definition NaN : number := S754_nan.
Definition of_Z (z : Z) : number := binary_normalize prec emax z 0 false.
Definition zero : number := Eval vm_compute in of_Z 0.
Definition one : number := Eval vm_compute in of_Z 1.
Definition four : number := Eval vm_compute in of_Z 4.

(** Every value a program can hold is a valid binary64. *)
Definition wf_number (x : number) : bool := valid_binary prec emax x.

(** [x / y], [x <= y] and the global [isNaN] on a number. *)
Definition num_div (x y : number) : number := SFdiv prec emax x y.
Definition num_leb (x y : number) : bool := SFleb x y.
Definition isNaN (x : number) : bool :=
  match x with S754_nan => true | _ => false end.

(** *** Strings

    A string is a sequence of code units; [string] holds the code units
    below 256, so the model covers the Latin-1 fragment of the strings of
    the host. *)

Definition code (c : ascii) : N := N_of_ascii c.

(** WhiteSpace and LineTerminator code units below 256:
    TAB, LF, VT, FF, CR, SP, NBSP. *)
Definition isWhiteSpace (c : ascii) : bool :=
  let n := code c in
  ((9 <=? n) && (n <=? 13) || (n =? 32) || (n =? 160))%N.

Fixpoint trimStart (s : string) : string :=
  match s with
  | EmptyString => EmptyString
  | String c s' => if isWhiteSpace c then trimStart s' else s
  end.

(** [trimEnd] keeps a character when it is not white space or when
    something is kept after it. *)
Fixpoint trimEnd (s : string) : string :=
  match s with
  | EmptyString => EmptyString
  | String c s' =>
      match trimEnd s' with
      | EmptyString => if isWhiteSpace c then EmptyString else String c EmptyString
      | t => String c t
      end
  end.

Definition trim (s : string) : string := trimEnd (trimStart s).

(** Upper-case letters below 256: A-Z, and the Latin-1 letters
    U+00C0..U+00DE without the multiplication sign U+00D7. *)
Definition isUpper (c : ascii) : bool :=
  let n := code c in
  ((65 <=? n) && (n <=? 90) ||
   (192 <=? n) && (n <=? 222) && negb (n =? 215))%N.

Definition lowerChar (c : ascii) : ascii :=
  if isUpper c then ascii_of_N (code c + 32) else c.

Fixpoint toLowerCase (s : string) : string :=
  match s with
  | EmptyString => EmptyString
  | String c s' => String (lowerChar c) (toLowerCase s')
  end.

(** Number::toString on the integers the code prints (an HTTP status). *)
Definition showN (n : N) : string := NilZero.string_of_uint (N.to_uint n).

(** *** JSON values, with [undefined] for the read of a missing property *)

#[warnings="-register-all"]
Inductive JValue : Type :=
| JUndefined
| JNull
| JBool (b : bool)
| JNum (n : number)
| JStr (s : string)
| JArr (items : list JValue)
| JObj (props : list (string * JValue)).

(** ToBoolean. *)
Definition truthy (v : JValue) : bool :=
  match v with
  | JUndefined | JNull => false
  | JBool b => b
  | JNum (S754_zero _) | JNum S754_nan => false
  | JNum _ => true
  | JStr s => negb (s =? EmptyString)
  | JArr _ | JObj _ => true
  end.

(** What a program can throw, as far as a [catch] of this code tells
    values apart: an [Error] (or a subclass) with its message, a string,
    anything else. *)
Inductive Thrown : Type :=
| ThrownError (message : string)
| ThrownString (s : string)
| ThrownOther.

Definition Completion (A : Type) : Type := (Thrown + A)%type.

Fixpoint assoc {A : Type} (k : string) (l : list (string * A)) : option A :=
  match l with
  | [] => None
  | (k', v) :: l' => if k =? k' then Some v else assoc k l'
  end.

(** The TypeError messages are the engine's; the wording is V8's. *)
Definition readOfNull (k : string) : Thrown :=
  ThrownError ("Cannot read properties of null (reading '" ++ k ++ "')").
Definition readOfUndefined (k : string) : Thrown :=
  ThrownError ("Cannot read properties of undefined (reading '" ++ k ++ "')").
Definition notAFunction (what : string) : Thrown :=
  ThrownError (what ++ " is not a function").

(** [v.k] for a key [k] that no prototype defines (the code reads [mood]
    and [prediction]): an own property of an object, [undefined] on any
    other value except [null] and [undefined], which throw. [props] lists
    the own properties of a parsed object, one entry per key. *)
Definition getProp (v : JValue) (k : string) : Completion JValue :=
  match v with
  | JNull => inl (readOfNull k)
  | JUndefined => inl (readOfUndefined k)
  | JObj props =>
      inr match assoc k props with Some x => x | None => JUndefined end
  | _ => inr JUndefined
  end.

(** [v?.k]. *)
Definition getPropOpt (v : JValue) (k : string) : JValue :=
  match getProp v k with inr x => x | inl _ => JUndefined end.

(** *** parseFloat

    [parseFloat(v)] converts [v] to a string, skips leading white space and
    reads the longest prefix that is a StrDecimalLiteral; the result is the
    binary64 nearest to the decimal value (ties to even), [NaN] when there
    is no such prefix. *)

Definition digitOf (c : ascii) : option Z :=
  let n := code c in
  if ((48 <=? n) && (n <=? 57))%N then Some (Z.of_N n - 48)%Z else None.

(** The longest run of decimal digits at the head of [s], appended to the
    digits read so far ([acc] their value, [len] their count). *)
Fixpoint readDigits (acc len : Z) (s : string) : Z * Z * string :=
  match s with
  | EmptyString => (acc, len, s)
  | String c s' =>
      match digitOf c with
      | Some d => readDigits (10 * acc + d)%Z (len + 1)%Z s'
      | None => (acc, len, s)
      end
  end.

(** ExponentPart: [e] or [E], an optional sign, at least one digit;
    0 when [s] does not start with one. *)
Definition readExponent (s : string) : Z :=
  match s with
  | String c s' =>
      if ((code c =? 101) || (code c =? 69))%N then
        let '(neg, s'') :=
          match s' with
          | String "-" r => (true, r)
          | String "+" r => (false, r)
          | _ => (false, s')
          end in
        let '(x, len, _) := readDigits 0 0 s'' in
        if (len =? 0)%Z then 0%Z else if neg then (- x)%Z else x
      else 0%Z
  | EmptyString => 0%Z
  end.

(** The binary64 nearest to [m * 10^k], [m >= 0], with sign [neg]. *)
Definition decimalToNumber (neg : bool) (m k : Z) : number :=
  match m with
  | Z0 => S754_zero neg
  | Zpos p =>
      match k with
      | Zneg _ =>
          let '(q, e, l) := SFdiv_core_binary prec emax m 0 (10 ^ (- k))%Z 0 in
          binary_round_aux prec emax neg q e l
      | _ => binary_round prec emax neg (Z.to_pos (m * 10 ^ k)) 0
      end
  | Zneg _ => NaN
  end.

Definition parseFloatStr (s : string) : number :=
  let t := trimStart s in
  let '(neg, u) :=
    match t with
    | String "-" r => (true, r)
    | String "+" r => (false, r)
    | _ => (false, t)
    end in
  if prefix "Infinity" u then S754_infinity neg
  else
    let '(i, li, r1) := readDigits 0 0 u in
    let '(m, lf, r2) :=
      match r1 with
      | String "." r => readDigits i 0 r
      | _ => (i, 0%Z, r1)
      end in
    if (li + lf =? 0)%Z then NaN
    else decimalToNumber neg m (readExponent r2 - lf).

(** *** ToString of a parsed value

    ToString throws a TypeError on an object that has a property
    [toString] of its own: no parsed value is callable, and [valueOf], own
    or inherited, gives no primitive. An array prints with [join], which
    converts every element but [null], so that one such object anywhere in
    it makes the conversion throw. Every other value prints. ToNumber and
    ToPropertyKey throw on the same values. *)
Fixpoint stringifies (v : JValue) : bool :=
  match v with
  | JObj props =>
      match assoc "toString" props with Some _ => false | None => true end
  | JArr items => forallb stringifies items
  | _ => true
  end.

Definition cannotConvert : Thrown :=
  ThrownError "Cannot convert object to primitive value".

(** What [parseFloat] reads in the ToString of a value that prints:
    [null], a boolean and an object print as words, an array prints its
    elements separated by commas, so that only the first one is read, and a
    number prints as a literal that reads back as the same number
    ([-0] prints as [0]). *)
Fixpoint parseFloatPrinted (v : JValue) : number :=
  match v with
  | JStr s => parseFloatStr s
  | JNum (S754_zero _) => S754_zero false
  | JNum n => n
  | JArr (x :: _) => parseFloatPrinted x
  | _ => NaN
  end.

Definition parseFloat (v : JValue) : Completion number :=
  if stringifies v then inr (parseFloatPrinted v) else inl cannotConvert.

(** *** What an object literal inherits

    A table written as an object literal answers [table[k]] with its own
    entry or, for twelve keys, with a member of [Object.prototype]:
    [__proto__] is [Object.prototype] itself, the eleven others are
    functions. All of them are truthy. *)
Inductive ProtoMember : Type :=
| MConstructor              (* the function [Object] *)
| MProto                    (* [Object.prototype] *)
| MHasOwnProperty
| MIsPrototypeOf
| MPropertyIsEnumerable
| MToLocaleString
| MToString
| MValueOf
| MDefineGetter
| MDefineSetter
| MLookupGetter
| MLookupSetter.

Definition objectPrototype : list (string * ProtoMember) :=
  [ ("constructor", MConstructor);
    ("__proto__", MProto);
    ("hasOwnProperty", MHasOwnProperty);
    ("isPrototypeOf", MIsPrototypeOf);
    ("propertyIsEnumerable", MPropertyIsEnumerable);
    ("toLocaleString", MToLocaleString);
    ("toString", MToString);
    ("valueOf", MValueOf);
    ("__defineGetter__", MDefineGetter);
    ("__defineSetter__", MDefineSetter);
    ("__lookupGetter__", MLookupGetter);
    ("__lookupSetter__", MLookupSetter) ].

(** The value of [table[k] || dflt] for a table of strings: a string, or
    an inherited member. *)
Inductive TableValue : Type :=
| TStr (s : string)
| TMember (m : ProtoMember).

Definition tableLookupOr (table : list (string * string)) (k dflt : string) : TableValue :=
  match assoc k table with
  | Some v => TStr (if v =? EmptyString then dflt else v)
  | None =>
      match assoc k objectPrototype with
      | Some m => TMember m
      | None => TStr dflt
      end
  end.

End JS.

(** Handlers read top to bottom as in the source: [st |> f |> g]. *)
Notation "x |> f" := (f x) (at level 45, left associativity, only parsing).

(** What the network layer hands back to an [await]. *)

Module Http.
Import JS.

(** A response: status line, and what [res.text()] and [res.json()]
    evaluate to once awaited (either may reject). *)
Record Response : Type := {
  status : N;
  statusText : string;
  res_text : Completion string;
  res_json : Completion JValue
}.

(** [res.ok]: the status is in the range 200-299. *)
Definition ok (res : Response) : bool :=
  ((200 <=? status res) && (status res <=? 299))%N.

(** How the promise of [fetch] settles. *)
Inductive FetchOutcome : Type :=
| Rejected (err : Thrown)
| Resolved (res : Response).

(** A keyboard event, as far as [handleKeyDown] reads it. *)
Record KeyboardEvent : Type := { key : string; shiftKey : bool }.

End Http.

(** What the page library does with a value it is handed. *)

Module React.
Import JS.

(** The values the hook [moodColor] holds: a string, and what the
    inherited members leave there when they are looked up as gradients
    (a String or Boolean object, [false], [Object.prototype]). *)
Inductive HookValue : Type :=
| VStr (s : string)
| VStrObj (s : string)       (* [new String(s)] *)
| VFalse
| VFalseObj                  (* [new Boolean(false)] *)
| VObjectPrototype.

Coercion VStr : string >-> HookValue.

(** The hook in a template literal: [`... ${moodColor}`]. *)
Definition classText (v : HookValue) : string :=
  match v with
  | VStr s | VStrObj s => s
  | VFalse | VFalseObj => "false"
  | VObjectPrototype => "[object Object]"
  end.

Definition isObject (v : HookValue) : bool :=
  match v with
  | VStr _ | VFalse => false
  | VStrObj _ | VFalseObj | VObjectPrototype => true
  end.

(** The TypeError of a built-in that needs [this]; the wording varies with
    the member. *)
Definition thisIsUndefined : Thrown :=
  ThrownError "Cannot convert undefined or null to object".

(** An inherited function called on the previous value of the hook, with
    [this] undefined, as an updater is: [Object] wraps a primitive,
    [toString] prints [undefined], [isPrototypeOf] answers [false] on a
    primitive before it looks at [this]; the others convert [this] to an
    object first, which throws. *)
Definition callMember (m : ProtoMember) (prev : HookValue) : Completion HookValue :=
  match m with
  | MConstructor =>
      inr match prev with
          | VStr s => VStrObj s
          | VFalse => VFalseObj
          | v => v
          end
  | MToString => inr (VStr "[object Undefined]")
  | MIsPrototypeOf => if isObject prev then inl thisIsUndefined else inr VFalse
  | _ => inl thisIsUndefined
  end.

(** [setState(v)], as the render that follows applies it: a function is an
    updater and is called on the previous value, anything else is the new
    value. A throw is a throw of that render. *)
Definition setState (v : TableValue) (prev : HookValue) : Completion HookValue :=
  match v with
  | TStr s => inr (VStr s)
  | TMember MProto => inr VObjectPrototype
  | TMember m => callMember m prev
  end.

(** A child of an element: a string is text, a function is left out, an
    object that is not an element is refused with an Error. *)
Definition validChild (v : TableValue) : bool :=
  match v with
  | TMember MProto => false
  | _ => true
  end.

Definition invalidChild : Thrown :=
  ThrownError "Objects are not valid as a React child (found: object with keys {})".

End React.

(** ** The live variant: src/pages/index.tsx, first component *)

Module Live.
Import JS Http React.

Record PredictionResult : Type := { mood : string; score : number }.

(** The table values are emoji; they are kept as their UTF-8 bytes. *)
Definition moodEmojis : list (string * string) :=
  [ ("positive", "😄");
    ("negative", "😢");
    ("mildly positive", "🙂");
    ("mildly negative", "🙁");
    ("neutral", "😐") ].

Definition moodColors : list (string * string) :=
  [ ("mildly positive", "from-yellow-300 to-yellow-500");
    ("mildly negative", "from-blue-300 to-blue-500");
    ("positive", "from-green-300 to-green-500");
    ("negative", "from-red-300 to-red-500");
    ("neutral", "from-gray-300 to-gray-500") ].

Definition defaultColor : string := "from-blue-100 to-purple-100".
Definition defaultEmoji : string := "😄".

(** [table[k] || dflt] on the table literals of this file. *)
Definition lookupOr (table : list (string * string)) (k dflt : string) : TableValue :=
  tableLookupOr table k dflt.

(** The state hooks of [Home], the ref to the textarea, which element has
    the focus, and the requests sent and not yet settled (each one is the
    [text] it carries). *)
Record State : Type := {
  text : string;
  result : option PredictionResult;
  loading : bool;
  error : string;
  moodColor : HookValue;
  textareaRef : bool;     (* textareaRef.current is the textarea *)
  focused : bool;         (* the textarea has the focus *)
  inflight : list string;
  resultDirty : bool      (* [result] was written since the last render *)
}.

Definition initial : State := {|
  text := EmptyString;
  result := None;
  loading := false;
  error := EmptyString;
  moodColor := defaultColor;
  textareaRef := true;
  focused := false;
  inflight := [];
  resultDirty := false
|}.

Definition setText (v : string) (st : State) : State :=
  {| text := v; result := result st; loading := loading st; error := error st;
     moodColor := moodColor st; textareaRef := textareaRef st;
     focused := focused st; inflight := inflight st;
     resultDirty := resultDirty st |}.

(** Writing [result] makes the next render run the effect on [result],
    unless [null] replaces [null]; an object literal is a new object each
    time it is evaluated. *)
Definition setResult (v : option PredictionResult) (st : State) : State :=
  {| text := text st; result := v; loading := loading st; error := error st;
     moodColor := moodColor st; textareaRef := textareaRef st;
     focused := focused st; inflight := inflight st;
     resultDirty :=
       resultDirty st ||
       match v, result st with None, None => false | _, _ => true end |}.

Definition rendered (st : State) : State :=
  {| text := text st; result := result st; loading := loading st; error := error st;
     moodColor := moodColor st; textareaRef := textareaRef st;
     focused := focused st; inflight := inflight st;
     resultDirty := false |}.

Definition setLoading (v : bool) (st : State) : State :=
  {| text := text st; result := result st; loading := v; error := error st;
     moodColor := moodColor st; textareaRef := textareaRef st;
     focused := focused st; inflight := inflight st;
     resultDirty := resultDirty st |}.

Definition setError (v : string) (st : State) : State :=
  {| text := text st; result := result st; loading := loading st; error := v;
     moodColor := moodColor st; textareaRef := textareaRef st;
     focused := focused st; inflight := inflight st;
     resultDirty := resultDirty st |}.

Definition setMoodColor (v : HookValue) (st : State) : State :=
  {| text := text st; result := result st; loading := loading st; error := error st;
     moodColor := v; textareaRef := textareaRef st;
     focused := focused st; inflight := inflight st;
     resultDirty := resultDirty st |}.

Definition setFocused (v : bool) (st : State) : State :=
  {| text := text st; result := result st; loading := loading st; error := error st;
     moodColor := moodColor st; textareaRef := textareaRef st;
     focused := v; inflight := inflight st;
     resultDirty := resultDirty st |}.

Definition setInflight (v : list string) (st : State) : State :=
  {| text := text st; result := result st; loading := loading st; error := error st;
     moodColor := moodColor st; textareaRef := textareaRef st;
     focused := focused st; inflight := v;
     resultDirty := resultDirty st |}.

(** [fetch(url, {method: "POST", ..., body: JSON.stringify({ text })})]:
    one request leaves, carrying the text of the render that made the call. *)
Definition fetch (st : State) : State :=
  setInflight (inflight st ++ [text st]) st.

(** The keys of the two lookups: [moodColors[result.mood]] in the effect
    and [moodEmojis[result.mood?.toLowerCase()]] in the result card. *)
Definition colorKey (r : PredictionResult) : string := mood r.
Definition emojiKey (r : PredictionResult) : string := toLowerCase (mood r).

(** [moodEmojis[result.mood?.toLowerCase()] || "😄"], a child of the card. *)
Definition emojiShown (r : PredictionResult) : TableValue :=
  lookupOr moodEmojis (emojiKey r) defaultEmoji.

(** The result card, [{result && (...)}]: the mood is a string and the
    score a number, so that only the emoji can be a child that is
    refused. *)
Definition renderCard (st : State) : Completion unit :=
  match result st with
  | Some r => if validChild (emojiShown r) then inr tt else inl invalidChild
  | None => inr tt
  end.

(** The body of [useEffect(..., [result])], with the render that applies
    its [setMoodColor]. *)
Definition useEffect_result (st : State) : Completion State :=
  match result st with
  | Some r =>
      if negb (mood r =? EmptyString) then
        match setState (lookupOr moodColors (colorKey r) defaultColor) (moodColor st) with
        | inl e => inl e
        | inr c => inr (setMoodColor c st)
        end
      else inr st
  | None => inr st
  end.

(** The render that follows a handler: the card is built, and the effect
    runs when its dependency [result] has changed. *)
Definition render (st : State) : Completion State :=
  match renderCard st with
  | inl e => inl e
  | inr _ =>
      if resultDirty st then
        match useEffect_result st with
        | inl e => inl e
        | inr st' => inr (rendered st')
        end
      else inr st
  end.

(** The hooks after that render. When it throws, no error boundary of
    this file catches the error and the page is unmounted: the hooks are
    then those the handler left, and they are the state of no page. *)
Definition commit (st : State) : State :=
  match render st with inr st' => st' | inl _ => st end.

Definition throws (st : State) : bool :=
  match render st with inr _ => false | inl _ => true end.

(** [analyze], up to its first [await]. *)
Definition analyze (st : State) : State :=
  st |> setLoading true |> setError EmptyString |> setResult None |> fetch.

(** The conversion of the prediction (0-4) to the score (0-1):
    [typeof p === 'number' ? p / 4 : parseFloat(p) / 4]. *)
Definition scoreOf (p : JValue) : Completion number :=
  match p with
  | JNum n => inr (num_div n four)
  | _ =>
      match parseFloat p with
      | inl e => inl e
      | inr x => inr (num_div x four)
      end
  end.

(** The validation and conversion of the parsed body [data]. *)
Definition normalize (data : JValue) : Completion PredictionResult :=
  match getProp data "mood", getProp data "prediction" with
  | inl e, _ | _, inl e => inl e
  | inr m, inr p =>
      if negb (truthy m) || match p with JUndefined => true | _ => false end
      then inl (ThrownError "Unexpected response format from backend")
      else
        match scoreOf p with
        | inl e => inl e
        | inr score =>
            if isNaN score then inl (ThrownError "Invalid prediction value")
            else
              match m with
              | JStr s => inr {| mood := toLowerCase s; score := score |}
              | _ => inl (notAFunction "data.mood.toLowerCase")
              end
        end
  end.

(** The [try] block after [fetch] has settled. *)
Definition tryBody (fo : FetchOutcome) : Completion PredictionResult :=
  match fo with
  | Rejected e => inl e
  | Resolved res =>
      if negb (ok res) then
        match res_text res with
        | inl e => inl e
        | inr errorText =>
            inl (ThrownError
                   ("Backend error: " ++ showN (status res) ++ " - " ++
                    (if errorText =? EmptyString then statusText res else errorText)))
        end
      else
        match res_json res with
        | inl e => inl e
        | inr data => normalize data
        end
  end.

(** The [catch] block: the message shown for a thrown value. *)
Definition errorMessage (err : Thrown) : string :=
  match err with
  | ThrownError message => message
  | ThrownString s => s
  | ThrownOther => "Something went wrong while predicting mood. Please try again."
  end.

(** [analyze], from the settlement of [fetch] to the end of [finally]. *)
Definition analyze_settled (fo : FetchOutcome) (st : State) : State :=
  (match tryBody fo with
   | inr r => st |> setResult (Some r)
   | inl err => st |> setError (errorMessage err)
   end) |> setLoading false.

Definition handleKeyDown (e : KeyboardEvent) (st : State) : bool * State :=
  if (key e =? "Enter") && negb (shiftKey e) then
    (true,                                          (* e.preventDefault() *)
     if negb (trim (text st) =? EmptyString) && negb (loading st)
     then analyze st else st)
  else (false, st).

(** [focus()] on the textarea; a disabled element does not take it. *)
Definition focus (st : State) : State :=
  if loading st then st else setFocused true st.

Definition resetForm (st : State) : State :=
  let st' := st |> setText EmptyString |> setResult None |> setError EmptyString in
  if textareaRef st' then focus st' else st'.

(** What the render offers: the controls that exist and are enabled. *)
Definition textareaDisabled (st : State) : bool := loading st.
Definition buttonDisabled (st : State) : bool :=
  loading st || (trim (text st) =? EmptyString).
Definition showsError (st : State) : bool := negb (error st =? EmptyString).
Definition showsResult (st : State) : bool :=
  match result st with Some _ => true | None => false end.

Inductive Event : Type :=
| Change (v : string)            (* onChange of the textarea *)
| KeyDown (e : KeyboardEvent)    (* onKeyDown of the textarea *)
| ClickPredict                   (* the submit button *)
| ClickTryAgain                  (* the button of the error block *)
| ClickAnalyzeAnother            (* the button of the result block *)
| Focus                          (* the user puts the focus on the textarea *)
| Blur                           (* the textarea loses the focus *)
| Settled (fo : FetchOutcome).   (* the oldest request in flight settles *)

Definition enabled (st : State) (ev : Event) : bool :=
  match ev with
  | Change _ | KeyDown _ => negb (textareaDisabled st)
  | ClickPredict => negb (buttonDisabled st)
  | ClickTryAgain => showsError st
  | ClickAnalyzeAnother => showsResult st
  | Focus => negb (textareaDisabled st)
  | Blur => focused st
  | Settled _ => match inflight st with [] => false | _ :: _ => true end
  end.

Definition handle (st : State) (ev : Event) : State :=
  match ev with
  | Change v => setText v st
  | KeyDown e => snd (handleKeyDown e st)
  | ClickPredict => analyze st
  | ClickTryAgain | ClickAnalyzeAnother => resetForm st
  | Focus => setFocused true st
  | Blur => setFocused false st
  | Settled fo => analyze_settled fo (setInflight (tl (inflight st)) st)
  end.

Definition step (st : State) (ev : Event) : State := commit (handle st ev).

(** The render after the event throws, and the page is unmounted. *)
Definition unmounts (st : State) (ev : Event) : bool := throws (handle st ev).

(** The states of the page, from the first render on and as long as it is
    mounted. *)
Inductive reachable : State -> Prop :=
| reach_initial : reachable initial
| reach_step st ev :
    reachable st -> enabled st ev = true -> unmounts st ev = false ->
    reachable (step st ev).

End Live.

(** ** The premium variant: src/unnamed/part_000 *)

Module Premium.
Import JS Http React.

Definition moodEmojis : list (string * string) :=
  [ ("positive", "😄");
    ("negative", "😢");
    ("mildly positive", "🙂");
    ("mildly negative", "🙁");
    ("neutral", "😐") ].

Definition moodColors : list (string * string) :=
  [ ("happy", "from-yellow-300 to-yellow-500");
    ("sad", "from-blue-300 to-blue-500");
    ("angry", "from-red-400 to-red-600");
    ("anxious", "from-purple-400 to-purple-600");
    ("excited", "from-orange-300 to-orange-500");
    ("relaxed", "from-green-300 to-green-500");
    ("neutral", "from-gray-300 to-gray-500");
    ("surprised", "from-pink-300 to-pink-500");
    ("tired", "from-indigo-300 to-indigo-500");
    ("loved", "from-rose-300 to-rose-500");
    ("playful", "from-cyan-300 to-cyan-500");
    ("confident", "from-teal-300 to-teal-500") ].

Definition defaultColor : string := "from-blue-100 to-purple-100".
Definition defaultEmoji : string := "😄".

(** [table[k] || dflt] on the table literals of this file. *)
Definition lookupOr (table : list (string * string)) (k dflt : string) : TableValue :=
  tableLookupOr table k dflt.

(** The property key a value that prints turns into, when it can be a
    key of the tables or of [Object.prototype]: a string is its own key and
    a one-element array prints as its element; numerals, [true], [false],
    [null], [[object Object]] and anything with a comma are keys of
    neither. *)
Fixpoint tableKey (v : JValue) : option string :=
  match v with
  | JStr s => Some s
  | JArr [x] => tableKey x
  | _ => None
  end.

(** ToPropertyKey, which throws where ToString does. *)
Definition propertyKey (v : JValue) : Completion (option string) :=
  if stringifies v then inr (tableKey v) else inl cannotConvert.

(** The hooks are those of the live variant, but [result] holds the parsed
    body itself, whatever its shape: the annotation [PredictionResult] is
    not checked when the code runs. [JNull] is [null]. *)
Record State : Type := {
  text : string;
  result : JValue;
  loading : bool;
  error : string;
  moodColor : HookValue;
  textareaRef : bool;
  focused : bool;
  inflight : list string;
  resultDirty : bool
}.

Definition initial : State := {|
  text := EmptyString;
  result := JNull;
  loading := false;
  error := EmptyString;
  moodColor := defaultColor;
  textareaRef := true;
  focused := false;
  inflight := [];
  resultDirty := false
|}.

Definition setText (v : string) (st : State) : State :=
  {| text := v; result := result st; loading := loading st; error := error st;
     moodColor := moodColor st; textareaRef := textareaRef st;
     focused := focused st; inflight := inflight st;
     resultDirty := resultDirty st |}.

(** As in the live variant; a parsed object is a new object, and on a
    primitive the effect finds no [mood], so that an unchanged primitive
    need not be told apart. *)
Definition setResult (v : JValue) (st : State) : State :=
  {| text := text st; result := v; loading := loading st; error := error st;
     moodColor := moodColor st; textareaRef := textareaRef st;
     focused := focused st; inflight := inflight st;
     resultDirty :=
       resultDirty st ||
       match v, result st with JNull, JNull => false | _, _ => true end |}.

Definition rendered (st : State) : State :=
  {| text := text st; result := result st; loading := loading st; error := error st;
     moodColor := moodColor st; textareaRef := textareaRef st;
     focused := focused st; inflight := inflight st;
     resultDirty := false |}.

Definition setLoading (v : bool) (st : State) : State :=
  {| text := text st; result := result st; loading := v; error := error st;
     moodColor := moodColor st; textareaRef := textareaRef st;
     focused := focused st; inflight := inflight st;
     resultDirty := resultDirty st |}.

Definition setError (v : string) (st : State) : State :=
  {| text := text st; result := result st; loading := loading st; error := v;
     moodColor := moodColor st; textareaRef := textareaRef st;
     focused := focused st; inflight := inflight st;
     resultDirty := resultDirty st |}.

Definition setMoodColor (v : HookValue) (st : State) : State :=
  {| text := text st; result := result st; loading := loading st; error := error st;
     moodColor := v; textareaRef := textareaRef st;
     focused := focused st; inflight := inflight st;
     resultDirty := resultDirty st |}.

Definition setFocused (v : bool) (st : State) : State :=
  {| text := text st; result := result st; loading := loading st; error := error st;
     moodColor := moodColor st; textareaRef := textareaRef st;
     focused := v; inflight := inflight st;
     resultDirty := resultDirty st |}.

Definition setInflight (v : list string) (st : State) : State :=
  {| text := text st; result := result st; loading := loading st; error := error st;
     moodColor := moodColor st; textareaRef := textareaRef st;
     focused := focused st; inflight := v;
     resultDirty := resultDirty st |}.

Definition fetch (st : State) : State :=
  setInflight (inflight st ++ [text st]) st.

(** [moodColors[result.mood]], the key of the colour lookup, and
    [moodEmojis[result.mood?.toLowerCase()] || ...] in the result card;
    a mood that is neither a string nor nullish has no [toLowerCase]. *)
Definition colorKey (r : JValue) : Completion (option string) :=
  propertyKey (getPropOpt r "mood").

Definition emojiKey (r : JValue) : Completion (option string) :=
  match getPropOpt r "mood" with
  | JUndefined | JNull => inr None
  | JStr s => inr (Some (toLowerCase s))
  | _ => inl (notAFunction "result.mood?.toLowerCase")
  end.

(** [moodColors[result.mood] || "from-blue-100 to-purple-100"]. *)
Definition colorOf (r : JValue) : Completion TableValue :=
  match colorKey r with
  | inl e => inl e
  | inr (Some k) => inr (lookupOr moodColors k defaultColor)
  | inr None => inr (TStr defaultColor)
  end.

Definition emojiShown (r : JValue) : Completion TableValue :=
  match emojiKey r with
  | inl e => inl e
  | inr (Some k) => inr (lookupOr moodEmojis k defaultEmoji)
  | inr None => inr (TStr defaultEmoji)
  end.

(** The result card, [{result && (...)}], top to bottom: the emoji lookup,
    the mood (a string or nullish once the lookup has not thrown), the
    products [result.score * 100], whose ToNumber throws where ToString
    does; then the children are checked. *)
Definition renderCard (st : State) : Completion unit :=
  if truthy (result st) then
    match emojiShown (result st) with
    | inl e => inl e
    | inr v =>
        if stringifies (getPropOpt (result st) "score") then
          if validChild v then inr tt else inl invalidChild
        else inl cannotConvert
    end
  else inr tt.

(** [if (result?.mood) setMoodColor(moodColors[result.mood] || ...)], with
    the render that applies the [setMoodColor]. *)
Definition useEffect_result (st : State) : Completion State :=
  if truthy (getPropOpt (result st) "mood") then
    match colorOf (result st) with
    | inl e => inl e
    | inr v =>
        match setState v (moodColor st) with
        | inl e => inl e
        | inr c => inr (setMoodColor c st)
        end
    end
  else inr st.

Definition render (st : State) : Completion State :=
  match renderCard st with
  | inl e => inl e
  | inr _ =>
      if resultDirty st then
        match useEffect_result st with
        | inl e => inl e
        | inr st' => inr (rendered st')
        end
      else inr st
  end.

(** As in the live variant: a render that throws unmounts the page. *)
Definition commit (st : State) : State :=
  match render st with inr st' => st' | inl _ => st end.

Definition throws (st : State) : bool :=
  match render st with inr _ => false | inl _ => true end.

Definition analyze (st : State) : State :=
  st |> setLoading true |> setError EmptyString |> setResult JNull |> fetch.

Definition tryBody (fo : FetchOutcome) : Completion JValue :=
  match fo with
  | Rejected e => inl e
  | Resolved res =>
      if negb (ok res) then inl (ThrownError "Failed to analyze mood")
      else res_json res
  end.

Definition analyze_settled (fo : FetchOutcome) (st : State) : State :=
  (match tryBody fo with
   | inr data => st |> setResult data
   | inl _ => st |> setError "Something went wrong. Please try again."
   end) |> setLoading false.

Definition handleKeyDown (e : KeyboardEvent) (st : State) : bool * State :=
  if (key e =? "Enter") && negb (shiftKey e) then
    (true,
     if negb (trim (text st) =? EmptyString) && negb (loading st)
     then analyze st else st)
  else (false, st).

Definition focus (st : State) : State :=
  if loading st then st else setFocused true st.

Definition resetForm (st : State) : State :=
  let st' := st |> setText EmptyString |> setResult JNull |> setError EmptyString in
  if textareaRef st' then focus st' else st'.

Definition textareaDisabled (st : State) : bool := loading st.
Definition buttonDisabled (st : State) : bool :=
  loading st || (trim (text st) =? EmptyString).
Definition showsResult (st : State) : bool := truthy (result st).

(** The error block of this variant has no button. *)
Inductive Event : Type :=
| Change (v : string)
| KeyDown (e : KeyboardEvent)
| ClickPredict
| ClickAnalyzeAnother
| Focus
| Blur
| Settled (fo : FetchOutcome).

Definition enabled (st : State) (ev : Event) : bool :=
  match ev with
  | Change _ | KeyDown _ => negb (textareaDisabled st)
  | ClickPredict => negb (buttonDisabled st)
  | ClickAnalyzeAnother => showsResult st
  | Focus => negb (textareaDisabled st)
  | Blur => focused st
  | Settled _ => match inflight st with [] => false | _ :: _ => true end
  end.

Definition handle (st : State) (ev : Event) : State :=
  match ev with
  | Change v => setText v st
  | KeyDown e => snd (handleKeyDown e st)
  | ClickPredict => analyze st
  | ClickAnalyzeAnother => resetForm st
  | Focus => setFocused true st
  | Blur => setFocused false st
  | Settled fo => analyze_settled fo (setInflight (tl (inflight st)) st)
  end.

Definition step (st : State) (ev : Event) : State := commit (handle st ev).

Definition unmounts (st : State) (ev : Event) : bool := throws (handle st ev).

Inductive reachable : State -> Prop :=
| reach_initial : reachable initial
| reach_step st ev :
    reachable st -> enabled st ev = true -> unmounts st ev = false ->
    reachable (step st ev).

End Premium.

(** ** The mock variant: src/pages/index.tsx, second component *)

Module Mock.
Import JS Http.

Record PredictionResult : Type := { mood : string; score : number }.

Definition moodEmojis : list (string * string) :=
  [ ("happy", "😄");
    ("sad", "😢");
    ("angry", "😠");
    ("anxious", "😰");
    ("excited", "🤩");
    ("relaxed", "😌");
    ("neutral", "😐");
    ("surprised", "😲");
    ("tired", "😴");
    ("loved", "🥰");
    ("playful", "😜");
    ("confident", "😎") ].

Definition moodColors : list (string * string) :=
  [ ("happy", "from-yellow-300 to-yellow-500");
    ("sad", "from-blue-300 to-blue-500");
    ("angry", "from-red-400 to-red-600");
    ("anxious", "from-purple-400 to-purple-600");
    ("excited", "from-orange-300 to-orange-500");
    ("relaxed", "from-green-300 to-green-500");
    ("neutral", "from-gray-300 to-gray-500");
    ("surprised", "from-pink-300 to-pink-500");
    ("tired", "from-indigo-300 to-indigo-500");
    ("loved", "from-rose-300 to-rose-500");
    ("playful", "from-cyan-300 to-cyan-500");
    ("confident", "from-teal-300 to-teal-500") ].

Definition defaultColor : string := "from-blue-100 to-purple-100".
Definition defaultEmoji : string := "😄".

(** [table[k] || dflt] for the keys this variant looks up: the moods of
    [mockResponses] and of [sampleMoods], which are entries of the
    tables. *)
Definition lookupOr (table : list (string * string)) (k dflt : string) : string :=
  match assoc k table with
  | Some v => if v =? EmptyString then dflt else v
  | None => dflt
  end.

(** A decimal literal of the source denotes the nearest binary64. *)
Definition mockResponses : list PredictionResult :=
  [ {| mood := "happy"; score := parseFloatStr "0.92" |};
    {| mood := "sad"; score := parseFloatStr "0.87" |};
    {| mood := "excited"; score := parseFloatStr "0.95" |};
    {| mood := "relaxed"; score := parseFloatStr "0.89" |};
    {| mood := "anxious"; score := parseFloatStr "0.91" |} ].

(** The moods offered under "Recent mood predictions". *)
Definition sampleMoods : list string :=
  [ "happy"; "excited"; "relaxed"; "playful"; "confident" ].

(** The hooks, and the number of [analyze] calls waiting for their timer. *)
Record State : Type := {
  text : string;
  result : option PredictionResult;
  loading : bool;
  error : string;
  moodColor : string;
  activeMood : string;
  timers : nat;
  resultDirty : bool
}.

Definition initial : State := {|
  text := EmptyString;
  result := None;
  loading := false;
  error := EmptyString;
  moodColor := defaultColor;
  activeMood := EmptyString;
  timers := 0;
  resultDirty := false
|}.

Definition setText (v : string) (st : State) : State :=
  {| text := v; result := result st; loading := loading st; error := error st;
     moodColor := moodColor st; activeMood := activeMood st;
     timers := timers st; resultDirty := resultDirty st |}.

Definition setResult (v : option PredictionResult) (st : State) : State :=
  {| text := text st; result := v; loading := loading st; error := error st;
     moodColor := moodColor st; activeMood := activeMood st;
     timers := timers st;
     resultDirty :=
       resultDirty st ||
       match v, result st with None, None => false | _, _ => true end |}.

Definition rendered (st : State) : State :=
  {| text := text st; result := result st; loading := loading st; error := error st;
     moodColor := moodColor st; activeMood := activeMood st;
     timers := timers st; resultDirty := false |}.

Definition setLoading (v : bool) (st : State) : State :=
  {| text := text st; result := result st; loading := v; error := error st;
     moodColor := moodColor st; activeMood := activeMood st;
     timers := timers st; resultDirty := resultDirty st |}.

Definition setError (v : string) (st : State) : State :=
  {| text := text st; result := result st; loading := loading st; error := v;
     moodColor := moodColor st; activeMood := activeMood st;
     timers := timers st; resultDirty := resultDirty st |}.

Definition setMoodColor (v : string) (st : State) : State :=
  {| text := text st; result := result st; loading := loading st; error := error st;
     moodColor := v; activeMood := activeMood st;
     timers := timers st; resultDirty := resultDirty st |}.

Definition setActiveMood (v : string) (st : State) : State :=
  {| text := text st; result := result st; loading := loading st; error := error st;
     moodColor := moodColor st; activeMood := v;
     timers := timers st; resultDirty := resultDirty st |}.

Definition setTimers (v : nat) (st : State) : State :=
  {| text := text st; result := result st; loading := loading st; error := error st;
     moodColor := moodColor st; activeMood := activeMood st;
     timers := v; resultDirty := resultDirty st |}.

(** [new Promise(resolve => setTimeout(resolve, 1500))]. *)
Definition setTimeout (st : State) : State := setTimers (S (timers st)) st.

Definition useEffect_result (st : State) : State :=
  match result st with
  | Some r =>
      if negb (mood r =? EmptyString)
      then st |> setActiveMood (mood r)
              |> setMoodColor (lookupOr moodColors (mood r) defaultColor)
      else st
  | None => st
  end.

Definition render (st : State) : State :=
  if resultDirty st then rendered (useEffect_result st) else st.

Definition analyze (st : State) : State :=
  st |> setLoading true |> setError EmptyString |> setResult None |> setTimeout.

(** [analyze] once the timer has fired; [i] is
    [Math.floor(Math.random() * mockResponses.length)]. Nothing in the
    [try] block throws, so the [catch] block never runs. *)
Definition analyze_settled (i : nat) (st : State) : State :=
  st |> setResult (nth_error mockResponses i) |> setLoading false.

Definition handleKeyDown (e : KeyboardEvent) (st : State) : bool * State :=
  if (key e =? "Enter") && negb (shiftKey e) then
    (true,
     if negb (trim (text st) =? EmptyString) && negb (loading st)
     then analyze st else st)
  else (false, st).

(** The [onClick] of a sample mood. *)
Definition pickSample (m : string) (st : State) : State :=
  st |> setText ("I'm feeling " ++ m ++ " today")
     |> setActiveMood m
     |> setMoodColor (lookupOr moodColors m defaultColor).

Definition textareaDisabled (st : State) : bool := loading st.
Definition buttonDisabled (st : State) : bool :=
  loading st || (trim (text st) =? EmptyString).
Definition showsResult (st : State) : bool :=
  match result st with Some _ => true | None => false end.

Inductive Event : Type :=
| Change (v : string)
| KeyDown (e : KeyboardEvent)
| ClickAnalyze                   (* the submit button *)
| ClickTryAnother                (* "Try another analysis": setResult(null) *)
| ClickSample (m : string)       (* one of the sample moods *)
| TimerFired (i : nat).          (* the oldest timer fires, the draw is [i] *)

Definition enabled (st : State) (ev : Event) : bool :=
  match ev with
  | Change _ | KeyDown _ => negb (textareaDisabled st)
  | ClickAnalyze => negb (buttonDisabled st)
  | ClickTryAnother => showsResult st
  | ClickSample m =>
      existsb (String.eqb m) sampleMoods && negb (showsResult st) && negb (loading st)
  | TimerFired i => (0 <? timers st)%nat && (i <? List.length mockResponses)%nat
  end.

Definition handle (st : State) (ev : Event) : State :=
  match ev with
  | Change v => setText v st
  | KeyDown e => snd (handleKeyDown e st)
  | ClickAnalyze => analyze st
  | ClickTryAnother => setResult None st
  | ClickSample m => pickSample m st
  | TimerFired i => analyze_settled i (setTimers (pred (timers st)) st)
  end.

Definition step (st : State) (ev : Event) : State := render (handle st ev).

Inductive reachable : State -> Prop :=
| reach_initial : reachable initial
| reach_step st ev :
    reachable st -> enabled st ev = true -> reachable (step st ev).

End Mock.

(** ** Predicates used to state the properties *)

Module Props.
Import JS Http.

(** A text that is empty or holds white space only. *)
Definition blank (s : string) : bool := forallb isWhiteSpace (list_ascii_of_string s).

Definition nonEmptyString (v : JValue) : bool :=
  match v with JStr s => negb (s =? EmptyString) | _ => false end.

Definition isUndefined (v : JValue) : bool :=
  match v with JUndefined => true | _ => false end.

(** The bodies the validation of the live variant turns down: [mood] is
    not a non-empty string, [prediction] is missing, its conversion
    throws, or the score is not a number. *)
Definition live_rejects (data : JValue) : bool :=
  negb (nonEmptyString (getPropOpt data "mood")) ||
  isUndefined (getPropOpt data "prediction") ||
  match Live.scoreOf (getPropOpt data "prediction") with
  | inl _ => true
  | inr score => isNaN score
  end.

(** A response whose body is the JSON text [raw], which parses to [data]. *)
Definition jsonResponse (st : N) (stText raw : string) (data : JValue) : Response :=
  {| status := st; statusText := stText; res_text := inr raw; res_json := inr data |}.

(** A response whose body is the plain text [raw], which is not JSON. *)
Definition textResponse (st : N) (stText raw : string) : Response :=
  {| status := st; statusText := stText; res_text := inr raw;
     res_json := inl (ThrownError "Unexpected token in JSON") |}.

(** The invariant of the page: at most one request is in flight; while it
    is, [loading] is set and both [result] and [error] are cleared; when
    none is, [loading] is unset and [result] and [error] are not both
    set. *)
Definition live_inv (st : Live.State) : Prop :=
  Live.textareaRef st = true /\
  Live.resultDirty st = false /\
  match Live.inflight st with
  | [] => Live.loading st = false /\ (Live.result st = None \/ Live.error st = EmptyString)
  | [_] => Live.loading st = true /\ Live.result st = None /\ Live.error st = EmptyString
  | _ => False
  end.

Definition premium_inv (st : Premium.State) : Prop :=
  Premium.textareaRef st = true /\
  Premium.resultDirty st = false /\
  match Premium.inflight st with
  | [] => Premium.loading st = false /\ (Premium.result st = JNull \/ Premium.error st = EmptyString)
  | [_] => Premium.loading st = true /\ Premium.result st = JNull /\ Premium.error st = EmptyString
  | _ => False
  end.

(** No call of the mock ends in an error: [error] stays empty. *)
Definition mock_inv (st : Mock.State) : Prop :=
  Mock.resultDirty st = false /\
  Mock.error st = EmptyString /\
  match Mock.timers st with
  | O => Mock.loading st = false
  | S O => Mock.loading st = true /\ Mock.result st = None
  | _ => False
  end.

(** The events a user causes, as opposed to the settlement of a request. *)
Definition live_userAction (ev : Live.Event) : bool :=
  match ev with Live.Settled _ => false | _ => true end.

Definition premium_userAction (ev : Premium.Event) : bool :=
  match ev with Premium.Settled _ => false | _ => true end.

(** The double quote, and a JSON string literal without escapes. *)
Definition dq : string := String "034" EmptyString.
Definition quoted (s : string) : string := dq ++ s ++ dq.

End Props.

(** * Properties *)

Import JS Http React Props.

(** ** Dividing a binary64 by four *)

Section DivideByFour.
Local Open Scope Z_scope.

Lemma digits2_lower (p : positive) : 2 ^ (Zpos (digits2_pos p) - 1) <= Zpos p.
Proof.
  induction p as [p IH|p IH|]; cbn [digits2_pos]; [| |reflexivity];
    rewrite Pos2Z.inj_succ;
    replace (Z.succ (Zpos (digits2_pos p)) - 1)
      with (Z.succ (Zpos (digits2_pos p) - 1)) by lia;
    rewrite Z.pow_succ_r by lia; lia.
Qed.

Lemma digits2_upper (p : positive) : Zpos p < 2 ^ Zpos (digits2_pos p).
Proof.
  induction p as [p IH|p IH|]; cbn [digits2_pos]; [| |reflexivity];
    rewrite Pos2Z.inj_succ, Z.pow_succ_r by lia; lia.
Qed.

Lemma Zdigits2_le (q n : Z) : 0 <= q < 2 ^ n -> 0 <= n -> 0 <= Zdigits2 q <= n.
Proof.
  intros [Hq0 Hq] Hn. destruct q as [|p|p]; cbn [Zdigits2]; try lia.
  split; [lia|].
  destruct (Z_le_gt_dec (Zpos (digits2_pos p)) n) as [|Hgt]; [assumption|exfalso].
  pose proof (digits2_lower p) as Hl.
  assert (2 ^ n <= 2 ^ (Zpos (digits2_pos p) - 1)) by (apply Z.pow_le_mono_r; lia).
  lia.
Qed.

Lemma shr_1_nonneg (mrs : shr_record) : 0 <= shr_m mrs -> 0 <= shr_m (shr_1 mrs).
Proof.
  destruct mrs as [m r s]; cbn [shr_m]; intros H.
  destruct m as [|[p|p|]|p]; cbn; lia.
Qed.

(** Rounding a significand below [2^53] at the least exponent gives zero or
    a number whose exponent is one of the two least. *)
Lemma round_bottom (sx : bool) (q : Z) (l : location) :
  0 <= q < 2 ^ 53 ->
  binary_round_aux prec emax sx q (-1074) l = S754_zero sx \/
  exists m e,
    binary_round_aux prec emax sx q (-1074) l = S754_finite sx m e /\ e <= -1073.
Proof.
  intros Hq.
  unfold binary_round_aux, shr_fexp.
  pose proof (Zdigits2_le q 53 Hq ltac:(lia)) as Hd.
  assert (E1 : fexp prec emax (Zdigits2 q + -1074) - -1074 = 0)
    by (unfold fexp, emin, prec, emax; lia).
  rewrite E1. cbn [shr].
  set (q2 := round_nearest_even _ _).
  assert (Hq2 : 0 <= q2 < 2 ^ 54).
  { subst q2. destruct l as [|[]]; cbn; try lia; destruct (Z.even q); lia. }
  pose proof (Zdigits2_le q2 54 Hq2 ltac:(lia)) as Hd2.
  assert (E2 : fexp prec emax (Zdigits2 q2 + -1074) - -1074 = 0 \/
               fexp prec emax (Zdigits2 q2 + -1074) - -1074 = 1)
    by (unfold fexp, emin, prec, emax; lia).
  destruct E2 as [E2|E2]; rewrite E2; cbn [shr shr_record_of_loc iter_pos].
  - cbn [shr_m]. destruct q2 as [|p|p]; [left; reflexivity| |lia].
    right. exists p, (-1074). split; [reflexivity|lia].
  - pose proof (shr_1_nonneg (Build_shr_record q2 false false)) as Hn.
    cbn [shr_m] in Hn. specialize (Hn ltac:(lia)).
    destruct (shr_m (shr_1 _)) as [|p|p]; [left; reflexivity| |lia].
    right. exists p, (-1074 + 1). split; [reflexivity|lia].
Qed.

(** A valid finite binary64 is normal with a full significand, or sits at
    one of the three least exponents. *)
Lemma canonical_cases (m : positive) (e : Z) :
  bounded prec emax m e = true ->
  (Zpos (digits2_pos m) = 53 /\ -1071 <= e <= 971) \/
  (Zpos (digits2_pos m) <= 53 /\ -1074 <= e <= -1072).
Proof.
  unfold bounded, canonical_mantissa, fexp, emin, prec, emax.
  intros H. apply andb_true_iff in H as [H1 H2].
  apply Z.eqb_eq in H1. apply Z.leb_le in H2. lia.
Qed.

(** In the normal range the division is exact: the exponent drops by two. *)
Lemma div4_normal (sx : bool) (m : positive) (e : Z) :
  Zpos (digits2_pos m) = 53 -> -1071 <= e <= 971 ->
  num_div (S754_finite sx m e) four = S754_finite sx m (e - 2).
Proof.
  intros Hd He.
  unfold num_div, four. cbn [SFdiv]. rewrite xorb_false_r.
  unfold SFdiv_core_binary. cbn [Zdigits2]. rewrite Hd.
  change (Zpos (digits2_pos 4503599627370496)) with 53.
  assert (E : Z.min (fexp prec emax (53 + e - (53 + -50))) (e - -50) = e - 3)
    by (unfold fexp, emin, prec, emax; lia).
  rewrite E.
  replace (e - -50 - (e - 3)) with 53 by lia.
  rewrite Z.shiftl_mul_pow2 by lia.
  assert (Ed : Z.div_eucl (Zpos m * 2 ^ 53) 4503599627370496 = (Zpos m~0, 0)).
  { pose proof (Z_div_mod (Zpos m * 2 ^ 53) 4503599627370496 ltac:(lia)) as H.
    destruct (Z.div_eucl _ _) as [q r]. destruct H as [H1 H2].
    assert (q = Zpos m~0) by lia. assert (r = 0) by lia. subst; reflexivity. }
  rewrite Ed. cbn [new_location Z.even new_location_even Z.eqb].
  unfold binary_round_aux, shr_fexp. cbn [Zdigits2 digits2_pos].
  rewrite Pos2Z.inj_succ, Hd.
  assert (E1 : fexp prec emax (Z.succ 53 + (e - 3)) - (e - 3) = 1)
    by (unfold fexp, emin, prec, emax; lia).
  rewrite E1.
  cbn [shr shr_record_of_loc iter_pos shr_1 orb shr_m loc_of_shr_record
       round_nearest_even Zdigits2].
  rewrite Hd.
  assert (E2 : fexp prec emax (53 + (e - 3 + 1)) - (e - 3 + 1) = 0)
    by (unfold fexp, emin, prec, emax; lia).
  rewrite E2. cbn [shr shr_m shr_record_of_loc].
  replace (e - 3 + 1) with (e - 2) by lia.
  replace (e - 2 <=? emax - prec) with true; [reflexivity|].
  symmetry; apply Z.leb_le. unfold emax, prec. lia.
Qed.

(** At the least exponents the quotient is rounded, and stays tiny. *)
Lemma div4_bottom (sx : bool) (m : positive) (e : Z) :
  Zpos (digits2_pos m) <= 53 -> -1074 <= e <= -1072 ->
  num_div (S754_finite sx m e) four = S754_zero sx \/
  exists m' e',
    num_div (S754_finite sx m e) four = S754_finite sx m' e' /\ e' <= -1073.
Proof.
  intros Hd He.
  unfold num_div, four. cbn [SFdiv]. rewrite xorb_false_r.
  unfold SFdiv_core_binary. cbn [Zdigits2].
  change (Zpos (digits2_pos 4503599627370496)) with 53.
  assert (E : Z.min (fexp prec emax (Zpos (digits2_pos m) + e - (53 + -50)))
                    (e - -50) = -1074)
    by (unfold fexp, emin, prec, emax; lia).
  rewrite E.
  set (s := e - -50 - -1074).
  assert (Hs : 50 <= s <= 52) by (subst s; lia).
  assert (Em : match s with
               | Z0 => Zpos m
               | Zpos _ => Z.shiftl (Zpos m) s
               | Zneg _ => 0
               end = Zpos m * 2 ^ s).
  { destruct s; try lia. apply Z.shiftl_mul_pow2; lia. }
  rewrite Em.
  pose proof (digits2_upper m) as Hu.
  assert (Hm : Zpos m < 2 ^ 53).
  { apply Z.lt_le_trans with (1 := Hu). apply Z.pow_le_mono_r; lia. }
  assert (Hps : 0 < 2 ^ s <= 2 ^ 52).
  { split; [apply Z.pow_pos_nonneg; lia | apply Z.pow_le_mono_r; lia]. }
  pose proof (Z_div_mod (Zpos m * 2 ^ s) 4503599627370496 ltac:(lia)) as H.
  destruct (Z.div_eucl _ _) as [q r]. destruct H as [H1 H2].
  apply round_bottom. nia.
Qed.

(** The quotient is [NaN] only when the dividend is. *)
Lemma div4_isNaN (x : number) :
  wf_number x = true -> isNaN (num_div x four) = isNaN x.
Proof.
  destruct x as [s|s| |s m e]; intros Hwf; try reflexivity.
  cbn [wf_number valid_binary] in Hwf.
  destruct (canonical_cases m e Hwf) as [[Hd He]|[Hd He]].
  - rewrite (div4_normal s m e Hd He). reflexivity.
  - destruct (div4_bottom s m e Hd He) as [E|(m' & e' & E & _)];
      rewrite E; reflexivity.
Qed.

(** [0 <= x <= 4] gives [0 <= x / 4 <= 1]. *)
Lemma div4_range (x : number) :
  wf_number x = true ->
  num_leb zero x = true -> num_leb x four = true ->
  num_leb zero (num_div x four) = true /\ num_leb (num_div x four) one = true.
Proof.
  destruct x as [s|s| |[|] m e]; intros Hwf H0 H4;
    try discriminate H0; try discriminate H4.
  - split; reflexivity.
  - destruct s; discriminate.
  - cbn [wf_number valid_binary] in Hwf.
    destruct (canonical_cases m e Hwf) as [[Hd He]|[Hd He]].
    + rewrite (div4_normal false m e Hd He).
      split; [reflexivity|].
      revert H4. unfold num_leb, SFleb, four, one. cbn [SFcompare].
      rewrite (Z.compare_sub (e - 2)), (Z.compare_sub e).
      replace (e - 2 - -52) with (e - -50) by lia.
      trivial.
    + destruct (div4_bottom false m e Hd He) as [E|(m' & e' & E & He')]; rewrite E.
      * split; reflexivity.
      * split; [reflexivity|].
        unfold num_leb, SFleb, one. cbn [SFcompare].
        replace (e' ?= -52) with Lt; [reflexivity|].
        symmetry. apply Z.compare_lt_iff. lia.
Qed.

End DivideByFour.

(** ** Strings *)

Lemma trimStart_blank (s : string) : blank s = true -> trimStart s = EmptyString.
Proof.
  unfold blank. induction s as [|c s IH]; cbn; [reflexivity|].
  intros H. apply andb_true_iff in H as [Hc Hs]. rewrite Hc. auto.
Qed.

Lemma trim_blank (s : string) : blank s = true -> trim s = EmptyString.
Proof. intros H. unfold trim. rewrite (trimStart_blank s H). reflexivity. Qed.

Lemma lowerChar_idempotent (c : ascii) : lowerChar (lowerChar c) = lowerChar c.
Proof. destruct c as [[] [] [] [] [] [] [] []]; reflexivity. Qed.

Lemma toLowerCase_idempotent (s : string) :
  toLowerCase (toLowerCase s) = toLowerCase s.
Proof.
  induction s as [|c s IH]; cbn; [reflexivity|].
  now rewrite lowerChar_idempotent, IH.
Qed.

Lemma toLowerCase_nonempty (s : string) :
  s <> EmptyString -> (toLowerCase s =? EmptyString) = false.
Proof. destruct s; [congruence|reflexivity]. Qed.

Lemma eqb_empty_false (s : string) : s <> EmptyString -> (s =? EmptyString) = false.
Proof. intros H. apply String.eqb_neq. exact H. Qed.

(** ** The live variant *)

Section LiveFacts.
Import Live.

(** A render that does not throw changes [moodColor] at most, and only
    after a write of [result]. *)
Lemma live_render_frame (st st' : State) :
  render st = inr st' ->
  text st' = text st /\ result st' = result st /\
  loading st' = loading st /\ error st' = error st /\
  textareaRef st' = textareaRef st /\ focused st' = focused st /\
  inflight st' = inflight st /\ resultDirty st' = false.
Proof.
  unfold render, useEffect_result.
  destruct (renderCard st); [discriminate|].
  destruct (resultDirty st) eqn:Hd; [|intros [= <-]; tauto].
  destruct (result st) as [r|] eqn:E.
  - destruct (negb (mood r =? EmptyString)).
    + destruct (setState _ _); [discriminate|].
      intros [= <-]. cbn. rewrite E. tauto.
    + intros [= <-]. cbn. rewrite E. tauto.
  - intros [= <-]. cbn. rewrite E. tauto.
Qed.

Lemma live_commit_frame (st : State) :
  text (commit st) = text st /\ result (commit st) = result st /\
  loading (commit st) = loading st /\ error (commit st) = error st /\
  textareaRef (commit st) = textareaRef st /\ focused (commit st) = focused st /\
  inflight (commit st) = inflight st.
Proof.
  unfold commit. destruct (render st) as [e|st'] eqn:E; [tauto|].
  destruct (live_render_frame st st' E) as (? & ? & ? & ? & ? & ? & ? & _). tauto.
Qed.

Lemma live_commit_clean (st : State) :
  throws st = false -> resultDirty (commit st) = false.
Proof.
  unfold throws, commit. destruct (render st) as [e|st'] eqn:E; [discriminate|].
  intros _. apply (live_render_frame st st' E).
Qed.

(** The card of a page that has rendered does not throw. *)
Lemma live_commit_card (st : State) :
  throws st = false -> renderCard (commit st) = inr tt.
Proof.
  unfold throws, commit. destruct (render st) as [e|st'] eqn:E; [discriminate|].
  intros _. destruct (live_render_frame st st' E) as (_ & Er & _).
  unfold renderCard. rewrite Er.
  unfold render in E. fold (renderCard st) in E.
  unfold renderCard in E |- *.
  destruct (result st) as [r|]; [|reflexivity].
  destruct (validChild (emojiShown r)); [reflexivity|discriminate].
Qed.

Lemma live_analyze_shape (st : State) :
  textareaRef st = true -> inflight st = [] ->
  textareaRef (analyze st) = true /\
  match inflight (analyze st) with
  | [] => loading (analyze st) = false /\
          (result (analyze st) = None \/ error (analyze st) = EmptyString)
  | [_] => loading (analyze st) = true /\ result (analyze st) = None /\
           error (analyze st) = EmptyString
  | _ => False
  end.
Proof. intros Href Hi. cbn. rewrite Hi. cbn. auto. Qed.

(** What a handler leaves, before the render. *)
Lemma live_handle_shape (st : State) (ev : Event) :
  live_inv st -> enabled st ev = true ->
  textareaRef (handle st ev) = true /\
  match inflight (handle st ev) with
  | [] => loading (handle st ev) = false /\
          (result (handle st ev) = None \/ error (handle st ev) = EmptyString)
  | [_] => loading (handle st ev) = true /\ result (handle st ev) = None /\
           error (handle st ev) = EmptyString
  | _ => False
  end.
Proof.
  intros (Href & Hd & Hfl) Hen.
  destruct ev as [v|e| | | | | |fo]; cbn [handle enabled] in *.
  - split; cbn; assumption.
  - unfold handleKeyDown.
    unfold textareaDisabled in Hen. apply negb_true_iff in Hen.
    destruct ((key e =? "Enter") && negb (shiftKey e)); cbn [snd].
    + rewrite Hen. rewrite andb_true_r.
      destruct (negb (trim (text st) =? EmptyString)).
      * apply live_analyze_shape; [assumption|].
        destruct (inflight st) as [|? [|? ?]]; [reflexivity| |contradiction].
        destruct Hfl; congruence.
      * split; assumption.
    + split; assumption.
  - unfold buttonDisabled in Hen. apply negb_true_iff, orb_false_iff in Hen as [Hl _].
    apply live_analyze_shape; [assumption|].
    destruct (inflight st) as [|? [|? ?]]; [reflexivity| |contradiction].
    destruct Hfl; congruence.
  - unfold showsError in Hen.
    destruct (inflight st) as [|? [|? ?]] eqn:Ei; [| |contradiction].
    + destruct Hfl as [Hl _].
      split; unfold resetForm, focus; cbn; rewrite Href, Hl; cbn;
        [assumption | rewrite Ei; auto].
    + destruct Hfl as (Hl & _ & He). rewrite He in Hen. discriminate.
  - unfold showsResult in Hen.
    destruct (inflight st) as [|? [|? ?]] eqn:Ei; [| |contradiction].
    + destruct Hfl as [Hl _].
      split; unfold resetForm, focus; cbn; rewrite Href, Hl; cbn;
        [assumption | rewrite Ei; auto].
    + destruct Hfl as (Hl & Hres & He). rewrite Hres in Hen. discriminate.
  - split; cbn; assumption.
  - split; cbn; assumption.
  - destruct (inflight st) as [|? [|? ?]]; [discriminate| |contradiction].
    destruct Hfl as (Hl & Hres & He).
    split; unfold analyze_settled; destruct (tryBody fo); cbn; auto.
Qed.

Lemma live_reachable_inv (st : State) : reachable st -> live_inv st.
Proof.
  induction 1 as [|st ev Hr IH Hen Hnt].
  - unfold live_inv; cbn; auto.
  - destruct (live_handle_shape st ev IH Hen) as [Href Hfl].
    unfold live_inv, step.
    destruct (live_commit_frame (handle st ev)) as (_ & Er & El & Ee & Et & _ & Ei).
    rewrite Er, El, Ee, Et, Ei.
    split; [exact Href|]. split; [|exact Hfl].
    apply live_commit_clean. exact Hnt.
Qed.

(** Every reachable page has rendered: its card does not throw. *)
Lemma live_reachable_card (st : State) : reachable st -> renderCard st = inr tt.
Proof.
  destruct 1 as [|st ev Hr Hen Hnt]; [reflexivity|].
  apply live_commit_card. exact Hnt.
Qed.

End LiveFacts.

Section LiveAnalyze.
Import Live.

(** One whole call: the outcome is written onto the cleared state. *)
Lemma live_analyze_outcome (fo : FetchOutcome) (st : State) :
  let st' := analyze_settled fo (analyze st) in
  loading st' = false /\
  match tryBody fo with
  | inr r => result st' = Some r /\ error st' = EmptyString
  | inl e => result st' = None /\ error st' = errorMessage e
  end.
Proof.
  unfold analyze_settled. destruct (tryBody fo); cbn; auto.
Qed.

Lemma live_tryBody_ok (res : Response) (data : JValue) :
  ok res = true -> res_json res = inr data ->
  tryBody (Resolved res) = normalize data.
Proof. intros Hok Hj. cbn. rewrite Hok, Hj. reflexivity. Qed.

(** The one error the conversion of the prediction throws. *)
Lemma live_scoreOf_thrown (p : JValue) (e : Thrown) :
  scoreOf p = inl e -> e = cannotConvert.
Proof.
  unfold scoreOf, parseFloat.
  destruct p; try discriminate; destruct (stringifies _); try discriminate;
    now intros [= <-].
Qed.

Lemma live_normalize_spec (data : JValue) :
  if live_rejects data
  then exists e, normalize data = inl e /\ errorMessage e <> EmptyString
  else exists s x,
      getPropOpt data "mood" = JStr s /\
      scoreOf (getPropOpt data "prediction") = inr x /\
      isNaN x = false /\
      normalize data = inr {| mood := toLowerCase s; score := x |}.
Proof.
  unfold live_rejects, normalize, getPropOpt.
  destruct data as [| |b|n|s|items|props]; cbn [getProp];
    try (cbn; eexists; split; [reflexivity|discriminate]).
  set (m := match assoc "mood" props with Some x => x | None => JUndefined end).
  set (p := match assoc "prediction" props with Some x => x | None => JUndefined end).
  clearbody m p.
  change (match p with JUndefined => true | _ => false end) with (isUndefined p).
  destruct (truthy m) eqn:Ht; cbn [negb orb].
  2:{ assert (Hn : nonEmptyString m = false).
      { destruct m; try reflexivity. cbn in Ht |- *. exact Ht. }
      rewrite Hn. cbn. eexists; split; [reflexivity|discriminate]. }
  destruct (isUndefined p).
  { rewrite orb_true_r. cbn [orb]. eexists; split; [reflexivity|discriminate]. }
  rewrite orb_false_r.
  destruct (scoreOf p) as [e|x] eqn:Es.
  { rewrite orb_true_r. exists e. split; [reflexivity|].
    rewrite (live_scoreOf_thrown _ _ Es). discriminate. }
  destruct (isNaN x) eqn:Hn.
  { rewrite orb_true_r. eexists; split; [reflexivity|discriminate]. }
  rewrite orb_false_r.
  destruct m; cbn [nonEmptyString negb];
    try (eexists; split; [reflexivity|discriminate]).
  cbn [truthy] in Ht. rewrite Ht. exists s, x. auto.
Qed.

End LiveAnalyze.

(** ** The premium variant *)

Section PremiumFacts.
Import Premium.

Lemma premium_render_frame (st st' : State) :
  render st = inr st' ->
  text st' = text st /\ result st' = result st /\
  loading st' = loading st /\ error st' = error st /\
  textareaRef st' = textareaRef st /\ focused st' = focused st /\
  inflight st' = inflight st /\ resultDirty st' = false.
Proof.
  unfold render, useEffect_result.
  destruct (renderCard st); [discriminate|].
  destruct (resultDirty st) eqn:Hd; [|intros [= <-]; tauto].
  destruct (truthy (getPropOpt (result st) "mood")).
  - destruct (colorOf (result st)); [discriminate|].
    destruct (setState _ _); [discriminate|].
    intros [= <-]. cbn. tauto.
  - intros [= <-]. cbn. tauto.
Qed.

Lemma premium_commit_frame (st : State) :
  text (commit st) = text st /\ result (commit st) = result st /\
  loading (commit st) = loading st /\ error (commit st) = error st /\
  textareaRef (commit st) = textareaRef st /\ focused (commit st) = focused st /\
  inflight (commit st) = inflight st.
Proof.
  unfold commit. destruct (render st) as [e|st'] eqn:E; [tauto|].
  destruct (premium_render_frame st st' E) as (? & ? & ? & ? & ? & ? & ? & _). tauto.
Qed.

Lemma premium_commit_clean (st : State) :
  throws st = false -> resultDirty (commit st) = false.
Proof.
  unfold throws, commit. destruct (render st) as [e|st'] eqn:E; [discriminate|].
  intros _. apply (premium_render_frame st st' E).
Qed.

Lemma premium_commit_card (st : State) :
  throws st = false -> renderCard (commit st) = inr tt.
Proof.
  unfold throws, commit. destruct (render st) as [e|st'] eqn:E; [discriminate|].
  intros _. destruct (premium_render_frame st st' E) as (_ & Er & _).
  unfold render in E.
  destruct (renderCard st) as [e|[]] eqn:Ec; [discriminate|].
  unfold renderCard in Ec |- *. rewrite Er. exact Ec.
Qed.

Lemma premium_analyze_shape (st : State) :
  textareaRef st = true -> inflight st = [] ->
  textareaRef (analyze st) = true /\
  match inflight (analyze st) with
  | [] => loading (analyze st) = false /\
          (result (analyze st) = JNull \/ error (analyze st) = EmptyString)
  | [_] => loading (analyze st) = true /\ result (analyze st) = JNull /\
           error (analyze st) = EmptyString
  | _ => False
  end.
Proof. intros Href Hi. cbn. rewrite Hi. cbn. auto. Qed.

Lemma premium_handle_shape (st : State) (ev : Event) :
  premium_inv st -> enabled st ev = true ->
  textareaRef (handle st ev) = true /\
  match inflight (handle st ev) with
  | [] => loading (handle st ev) = false /\
          (result (handle st ev) = JNull \/ error (handle st ev) = EmptyString)
  | [_] => loading (handle st ev) = true /\ result (handle st ev) = JNull /\
           error (handle st ev) = EmptyString
  | _ => False
  end.
Proof.
  intros (Href & Hd & Hfl) Hen.
  destruct ev as [v|e| | | | |fo]; cbn [handle enabled] in *.
  - split; cbn; assumption.
  - unfold handleKeyDown.
    unfold textareaDisabled in Hen. apply negb_true_iff in Hen.
    destruct ((key e =? "Enter") && negb (shiftKey e)); cbn [snd].
    + rewrite Hen. rewrite andb_true_r.
      destruct (negb (trim (text st) =? EmptyString)).
      * apply premium_analyze_shape; [assumption|].
        destruct (inflight st) as [|? [|? ?]]; [reflexivity| |contradiction].
        destruct Hfl; congruence.
      * split; assumption.
    + split; assumption.
  - unfold buttonDisabled in Hen. apply negb_true_iff, orb_false_iff in Hen as [Hl _].
    apply premium_analyze_shape; [assumption|].
    destruct (inflight st) as [|? [|? ?]]; [reflexivity| |contradiction].
    destruct Hfl; congruence.
  - unfold showsResult in Hen.
    destruct (inflight st) as [|? [|? ?]] eqn:Ei; [| |contradiction].
    + destruct Hfl as [Hl _].
      split; unfold resetForm, focus; cbn; rewrite Href, Hl; cbn;
        [assumption | rewrite Ei; auto].
    + destruct Hfl as (Hl & Hres & He). rewrite Hres in Hen. discriminate.
  - split; cbn; assumption.
  - split; cbn; assumption.
  - destruct (inflight st) as [|? [|? ?]]; [discriminate| |contradiction].
    destruct Hfl as (Hl & Hres & He).
    split; unfold analyze_settled; destruct (tryBody fo); cbn; auto.
Qed.

Lemma premium_reachable_inv (st : State) : reachable st -> premium_inv st.
Proof.
  induction 1 as [|st ev Hr IH Hen Hnt].
  - unfold premium_inv; cbn; auto.
  - destruct (premium_handle_shape st ev IH Hen) as [Href Hfl].
    unfold premium_inv, step.
    destruct (premium_commit_frame (handle st ev)) as (_ & Er & El & Ee & Et & _ & Ei).
    rewrite Er, El, Ee, Et, Ei.
    split; [exact Href|]. split; [|exact Hfl].
    apply premium_commit_clean. exact Hnt.
Qed.

Lemma premium_reachable_card (st : State) : reachable st -> renderCard st = inr tt.
Proof.
  destruct 1 as [|st ev Hr Hen Hnt]; [reflexivity|].
  apply premium_commit_card. exact Hnt.
Qed.

Lemma premium_analyze_outcome (fo : FetchOutcome) (st : State) :
  let st' := analyze_settled fo (analyze st) in
  loading st' = false /\
  match tryBody fo with
  | inr data => result st' = data /\ error st' = EmptyString
  | inl _ =>
      result st' = JNull /\ error st' = "Something went wrong. Please try again."
  end.
Proof.
  unfold analyze_settled. destruct (tryBody fo); cbn; auto.
Qed.

End PremiumFacts.

(** ** The mock variant *)

Section MockFacts.
Import Mock.

Lemma mock_render_frame (st : State) :
  text (render st) = text st /\ result (render st) = result st /\
  loading (render st) = loading st /\ error (render st) = error st /\
  timers (render st) = timers st.
Proof.
  unfold render, useEffect_result.
  destruct (resultDirty st); [|tauto].
  destruct (result st) as [r|] eqn:E; [|cbn; rewrite E; tauto].
  destruct (negb (mood r =? EmptyString)); cbn; rewrite E; tauto.
Qed.

Lemma mock_inv_render (st : State) :
  error st = EmptyString ->
  match timers st with
  | O => loading st = false
  | S O => loading st = true /\ result st = None
  | _ => False
  end ->
  mock_inv (render st).
Proof.
  intros He H. unfold mock_inv.
  destruct (mock_render_frame st) as (_ & Er & El & Ee' & Et).
  rewrite Er, El, Ee', Et. repeat split; try assumption.
  unfold render. destruct (resultDirty st) eqn:E; [reflexivity|exact E].
Qed.

Lemma mock_inv_analyze (st : State) :
  timers st = O -> mock_inv (render (analyze st)).
Proof.
  intros Hi. apply mock_inv_render; cbn; [reflexivity|].
  rewrite Hi. auto.
Qed.

Lemma mock_reachable_inv (st : State) : reachable st -> mock_inv st.
Proof.
  induction 1 as [|st ev Hr IH Hen].
  - unfold mock_inv; cbn; auto.
  - destruct IH as (Hd & He & Hfl). unfold step.
    destruct ev as [v|e| | |m|i]; cbn [handle enabled] in *.
    + apply mock_inv_render; cbn; assumption.
    + unfold handleKeyDown.
      unfold textareaDisabled in Hen. apply negb_true_iff in Hen.
      destruct ((key e =? "Enter") && negb (shiftKey e)); cbn [snd].
      * rewrite Hen. rewrite andb_true_r.
        destruct (negb (trim (text st) =? EmptyString)).
        -- apply mock_inv_analyze.
           destruct (timers st) as [|[|?]]; [reflexivity| |contradiction].
           destruct Hfl; congruence.
        -- apply mock_inv_render; assumption.
      * apply mock_inv_render; assumption.
    + unfold buttonDisabled in Hen. apply negb_true_iff, orb_false_iff in Hen as [Hl _].
      apply mock_inv_analyze.
      destruct (timers st) as [|[|?]]; [reflexivity| |contradiction].
      destruct Hfl; congruence.
    + unfold showsResult in Hen.
      apply mock_inv_render; cbn; [assumption|].
      destruct (timers st) as [|[|?]]; [assumption| |contradiction].
      destruct Hfl as [_ Hres]. rewrite Hres in Hen. discriminate.
    + apply mock_inv_render; cbn; assumption.
    + apply andb_true_iff in Hen as [Ht _]. apply Nat.ltb_lt in Ht.
      destruct (timers st) as [|[|?]]; [lia| |contradiction].
      apply mock_inv_render; cbn; auto.
Qed.

End MockFacts.


(** * The claims *)

(** ** C1: the score is the prediction divided by four *)

(** C1 (amended). For every backend response whose [mood] is a non-empty
    string and whose [prediction] field converts to a score that is a
    number, the live variant stores the lowercased mood with the score
    [prediction / 4]; a prediction that is not a number is read with
    [parseFloat] first, which throws on a prediction that cannot be
    printed. Every numeric prediction converts, its score is a number when
    it is one, and when the prediction lies in [0,4] the score lies in
    [0,1]. *)
Theorem C1_score_is_prediction_over_four :
  (forall (st : Live.State) (res : Response) (data : JValue) (s : string)
          (p : JValue) (x : number),
      ok res = true -> res_json res = inr data ->
      getProp data "mood" = inr (JStr s) -> s <> EmptyString ->
      getProp data "prediction" = inr p -> p <> JUndefined ->
      Live.scoreOf p = inr x -> isNaN x = false ->
      Live.result (Live.analyze_settled (Resolved res) (Live.analyze st)) =
        Some {| Live.mood := toLowerCase s; Live.score := x |}) /\
  (forall (p : JValue) (x : number),
      Live.scoreOf p = inr x ->
      exists y, x = num_div y four /\
                match p with JNum n => y = n | _ => parseFloat p = inr y end) /\
  (forall n : number,
      wf_number n = true ->
      Live.scoreOf (JNum n) = inr (num_div n four) /\
      isNaN (num_div n four) = isNaN n /\
      (num_leb zero n = true -> num_leb n four = true ->
       num_leb zero (num_div n four) = true /\
       num_leb (num_div n four) one = true)).
Proof.
  split; [|split].
  - intros st res data s p x Hok Hj Hm Hs Hp Hu Hx Hnan.
    destruct (live_analyze_outcome (Resolved res) st) as [_ H].
    rewrite (live_tryBody_ok res data Hok Hj) in H.
    assert (E : Live.normalize data =
                inr {| Live.mood := toLowerCase s; Live.score := x |}).
    { unfold Live.normalize. rewrite Hm, Hp. cbn [truthy].
      rewrite (eqb_empty_false s Hs), Hx, Hnan. cbn [negb orb].
      destruct p; try reflexivity. contradiction. }
    rewrite E in H. apply H.
  - intros p x. unfold Live.scoreOf.
    destruct p; try (destruct (parseFloat _) as [e|y]; [discriminate|]);
      intros [= <-]; eauto.
  - intros n Hwf. cbn [Live.scoreOf].
    split; [reflexivity|]. split; [apply div4_isNaN; exact Hwf|].
    intros H0 H4. apply div4_range; assumption.
Qed.

(** The body with the mood "Positive" and the prediction 3, and the
    prediction 3 itself. *)
Lemma C1_witness :
  let data := JObj [("mood", JStr "Positive"); ("prediction", JNum (of_Z 3))] in
  let raw := "{" ++ quoted "mood" ++ ":" ++ quoted "Positive" ++ ","
                 ++ quoted "prediction" ++ ":3}" in
  let st := Live.setText "I feel great today" Live.initial in
  Live.result (Live.analyze_settled (Resolved (jsonResponse 200 "OK" raw data))
                                    (Live.analyze st)) =
    Some {| Live.mood := "positive"; Live.score := num_div (of_Z 3) four |} /\
  num_leb zero (num_div (of_Z 3) four) = true /\
  num_leb (num_div (of_Z 3) four) one = true.
Proof.
  intros data raw st.
  destruct C1_score_is_prediction_over_four as (H1 & _ & H2).
  split.
  - apply (H1 st (jsonResponse 200 "OK" raw data) data "Positive" (JNum (of_Z 3)));
      solve [reflexivity | discriminate].
  - destruct (H2 (of_Z 3) eq_refl) as (_ & _ & H). apply H; reflexivity.
Defined.

(** C1 as stated fails on bodies that hold a [mood] string and a
    [prediction] field: with the empty mood and the prediction 2, with the
    mood "happy" and the prediction "n/a", and with the mood "neutral" and
    the prediction [[1, {"toString": 1}]], no score is stored. *)
Lemma C1_counterexample :
  let data1 := JObj [("mood", JStr EmptyString); ("prediction", JNum (of_Z 2))] in
  let raw1 := "{" ++ quoted "mood" ++ ":" ++ quoted EmptyString ++ ","
                  ++ quoted "prediction" ++ ":2}" in
  let data2 := JObj [("mood", JStr "happy"); ("prediction", JStr "n/a")] in
  let raw2 := "{" ++ quoted "mood" ++ ":" ++ quoted "happy" ++ ","
                  ++ quoted "prediction" ++ ":" ++ quoted "n/a" ++ "}" in
  let data3 := JObj [("mood", JStr "neutral");
                     ("prediction", JArr [JNum one; JObj [("toString", JNum one)]])] in
  let raw3 := "{" ++ quoted "mood" ++ ":" ++ quoted "neutral" ++ ","
                  ++ quoted "prediction" ++ ":[1,{" ++ quoted "toString" ++ ":1}]}" in
  let st := Live.setText "I feel great today" Live.initial in
  let settle raw data :=
    Live.analyze_settled (Resolved (jsonResponse 200 "OK" raw data)) (Live.analyze st) in
  (num_leb zero (of_Z 2) = true /\ num_leb (of_Z 2) four = true) /\
  (Live.result (settle raw1 data1) = None /\
   Live.error (settle raw1 data1) = "Unexpected response format from backend") /\
  (Live.result (settle raw2 data2) = None /\
   Live.error (settle raw2 data2) = "Invalid prediction value") /\
  (Live.result (settle raw3 data3) = None /\
   Live.error (settle raw3 data3) = "Cannot convert object to primitive value").
Proof. vm_compute. repeat split. Qed.

(** ** C2: which bodies end in the error state *)

(** C2 (amended). In the live variant, for every parsed response body,
    [analyze] ends in the error state (result null, error message not
    empty) exactly when [mood] is not a non-empty string, [prediction] is
    missing, the conversion of [prediction] throws, or the derived score
    is not a number; otherwise it hands a result to [setResult] and the
    error stays empty. The premium variant hands every parsed body to
    [setResult] as it is and leaves the error empty. *)
Theorem C2_normalization_errors :
  (forall (st : Live.State) (res : Response) (data : JValue),
      ok res = true -> res_json res = inr data ->
      let st' := Live.analyze_settled (Resolved res) (Live.analyze st) in
      if live_rejects data
      then Live.result st' = None /\ Live.error st' <> EmptyString
      else Live.error st' = EmptyString /\ exists r, Live.result st' = Some r) /\
  (forall (st : Premium.State) (res : Response) (data : JValue),
      ok res = true -> res_json res = inr data ->
      let st' := Premium.analyze_settled (Resolved res) (Premium.analyze st) in
      Premium.result st' = data /\ Premium.error st' = EmptyString).
Proof.
  split.
  - intros st res data Hok Hj st'.
    destruct (live_analyze_outcome (Resolved res) st) as [_ H].
    fold st' in H. rewrite (live_tryBody_ok res data Hok Hj) in H.
    pose proof (live_normalize_spec data) as Hn.
    destruct (live_rejects data).
    + destruct Hn as (e & En & Hne). rewrite En in H.
      destruct H as [Hr He]. rewrite He. auto.
    + destruct Hn as (s & x & _ & _ & _ & En). rewrite En in H.
      destruct H as [Hr He]. eauto.
  - intros st res data Hok Hj st'.
    destruct (premium_analyze_outcome (Resolved res) st) as [_ H].
    fold st' in H. cbn [Premium.tryBody] in H. rewrite Hok, Hj in H.
    exact H.
Qed.

(** A body the live variant accepts, one it turns down for its missing
    mood, one whose prediction cannot be converted, and the second one in
    the premium variant. *)
Lemma C2_witness :
  let good := JObj [("mood", JStr "Neutral"); ("prediction", JNum (of_Z 2))] in
  let rawGood := "{" ++ quoted "mood" ++ ":" ++ quoted "Neutral" ++ ","
                     ++ quoted "prediction" ++ ":2}" in
  let bad := JObj [("prediction", JNum (of_Z 2))] in
  let rawBad := "{" ++ quoted "prediction" ++ ":2}" in
  let odd := JObj [("mood", JStr "neutral");
                   ("prediction", JArr [JNum one; JObj [("toString", JNum one)]])] in
  let rawOdd := "{" ++ quoted "mood" ++ ":" ++ quoted "neutral" ++ ","
                    ++ quoted "prediction" ++ ":[1,{" ++ quoted "toString" ++ ":1}]}" in
  let stL := Live.setText "so so" Live.initial in
  let stP := Premium.setText "so so" Premium.initial in
  let settleL raw data :=
    Live.analyze_settled (Resolved (jsonResponse 200 "OK" raw data)) (Live.analyze stL) in
  let settleP raw data :=
    Premium.analyze_settled (Resolved (jsonResponse 200 "OK" raw data))
                            (Premium.analyze stP) in
  (Live.error (settleL rawGood good) = EmptyString /\
   exists r, Live.result (settleL rawGood good) = Some r) /\
  (Live.result (settleL rawBad bad) = None /\
   Live.error (settleL rawBad bad) <> EmptyString) /\
  (Live.result (settleL rawOdd odd) = None /\
   Live.error (settleL rawOdd odd) <> EmptyString) /\
  (Premium.result (settleP rawBad bad) = bad /\
   Premium.error (settleP rawBad bad) = EmptyString).
Proof.
  intros good rawGood bad rawBad odd rawOdd stL stP settleL settleP.
  split; [|split; [|split]].
  - exact (proj1 C2_normalization_errors stL (jsonResponse 200 "OK" rawGood good)
             good eq_refl eq_refl).
  - exact (proj1 C2_normalization_errors stL (jsonResponse 200 "OK" rawBad bad)
             bad eq_refl eq_refl).
  - exact (proj1 C2_normalization_errors stL (jsonResponse 200 "OK" rawOdd odd)
             odd eq_refl eq_refl).
  - exact (proj2 C2_normalization_errors stP (jsonResponse 200 "OK" rawBad bad)
             bad eq_refl eq_refl).
Defined.

(** C2 as stated fails both ways. The premium variant takes the body [{}],
    which has no [mood], without an error and stores it. The live variant
    turns down a body whose [mood] field is there (the empty string) and
    whose score, 3/4, is a number. *)
Lemma C2_counterexample :
  let empty := JObj [] in
  let stP := Premium.analyze_settled (Resolved (jsonResponse 200 "OK" "{}" empty))
               (Premium.analyze (Premium.setText "so so" Premium.initial)) in
  let data := JObj [("mood", JStr EmptyString); ("prediction", JNum (of_Z 3))] in
  let raw := "{" ++ quoted "mood" ++ ":" ++ quoted EmptyString ++ ","
                 ++ quoted "prediction" ++ ":3}" in
  let stL := Live.analyze_settled (Resolved (jsonResponse 200 "OK" raw data))
               (Live.analyze (Live.setText "so so" Live.initial)) in
  (getProp empty "mood" = inr JUndefined /\
   Premium.result stP = JObj [] /\ Premium.error stP = EmptyString) /\
  (getProp data "mood" = inr (JStr EmptyString) /\
   Live.scoreOf (JNum (of_Z 3)) = inr (num_div (of_Z 3) four) /\
   isNaN (num_div (of_Z 3) four) = false /\
   Live.result stL = None /\
   Live.error stL = "Unexpected response format from backend").
Proof. vm_compute. repeat split. Qed.

(** ** C3: result and error are never both set *)

(** C3. In every reachable state of each variant, a result that is not
    null comes with an empty error and an error that is not empty comes
    with a null result; a call of [analyze] clears both, and they are still
    clear when its outcome is written (while a request or timer is
    pending). *)
Theorem C3_result_error_exclusive :
  (forall st : Live.State,
      Live.reachable st ->
      (Live.result st <> None -> Live.error st = EmptyString) /\
      (Live.error st <> EmptyString -> Live.result st = None) /\
      (Live.inflight st <> [] ->
       Live.result st = None /\ Live.error st = EmptyString)) /\
  (forall st : Live.State,
      Live.result (Live.analyze st) = None /\
      Live.error (Live.analyze st) = EmptyString) /\
  (forall st : Premium.State,
      Premium.reachable st ->
      (Premium.result st <> JNull -> Premium.error st = EmptyString) /\
      (Premium.error st <> EmptyString -> Premium.result st = JNull) /\
      (Premium.inflight st <> [] ->
       Premium.result st = JNull /\ Premium.error st = EmptyString)) /\
  (forall st : Premium.State,
      Premium.result (Premium.analyze st) = JNull /\
      Premium.error (Premium.analyze st) = EmptyString) /\
  (forall st : Mock.State,
      Mock.reachable st ->
      Mock.error st = EmptyString /\
      (Mock.timers st <> O -> Mock.result st = None)) /\
  (forall st : Mock.State,
      Mock.result (Mock.analyze st) = None /\
      Mock.error (Mock.analyze st) = EmptyString).
Proof.
  repeat split; try reflexivity.
  - intros Hres. destruct (live_reachable_inv st H) as (_ & _ & Hfl).
    destruct (Live.inflight st) as [|? [|? ?]]; [| |contradiction].
    + destruct Hfl as [_ [Hn|He]]; [contradiction|exact He].
    + apply Hfl.
  - intros Herr. destruct (live_reachable_inv st H) as (_ & _ & Hfl).
    destruct (Live.inflight st) as [|? [|? ?]]; [| |contradiction].
    + destruct Hfl as [_ [Hn|He]]; [exact Hn|contradiction].
    + apply Hfl.
  - destruct (live_reachable_inv st H) as (_ & _ & Hfl).
    destruct (Live.inflight st) as [|? [|? ?]]; [contradiction| |contradiction].
    apply Hfl.
  - destruct (live_reachable_inv st H) as (_ & _ & Hfl).
    destruct (Live.inflight st) as [|? [|? ?]]; [contradiction| |contradiction].
    apply Hfl.
  - intros Hres. destruct (premium_reachable_inv st H) as (_ & _ & Hfl).
    destruct (Premium.inflight st) as [|? [|? ?]]; [| |contradiction].
    + destruct Hfl as [_ [Hn|He]]; [contradiction|exact He].
    + apply Hfl.
  - intros Herr. destruct (premium_reachable_inv st H) as (_ & _ & Hfl).
    destruct (Premium.inflight st) as [|? [|? ?]]; [| |contradiction].
    + destruct Hfl as [_ [Hn|He]]; [exact Hn|contradiction].
    + apply Hfl.
  - destruct (premium_reachable_inv st H) as (_ & _ & Hfl).
    destruct (Premium.inflight st) as [|? [|? ?]]; [contradiction| |contradiction].
    apply Hfl.
  - destruct (premium_reachable_inv st H) as (_ & _ & Hfl).
    destruct (Premium.inflight st) as [|? [|? ?]]; [contradiction| |contradiction].
    apply Hfl.
  - apply (mock_reachable_inv st H).
  - intros Ht. destruct (mock_reachable_inv st H) as (_ & _ & Hfl).
    destruct (Mock.timers st) as [|[|?]]; [contradiction| |contradiction].
    apply Hfl.
Qed.

(** A successful call in the live variant, a failed one in the premium
    variant, a call of the mock. *)
Lemma C3_witness :
  let data := JObj [("mood", JStr "Positive"); ("prediction", JNum (of_Z 4))] in
  let raw := "{" ++ quoted "mood" ++ ":" ++ quoted "Positive" ++ ","
                 ++ quoted "prediction" ++ ":4}" in
  let stL :=
    Live.step (Live.step (Live.step Live.initial (Live.Change "I feel great today"))
                         Live.ClickPredict)
              (Live.Settled (Resolved (jsonResponse 200 "OK" raw data))) in
  let stP :=
    Premium.step (Premium.step (Premium.step Premium.initial
                                             (Premium.Change "I feel great today"))
                               Premium.ClickPredict)
                 (Premium.Settled (Rejected (ThrownError "Failed to fetch"))) in
  let stM :=
    Mock.step (Mock.step (Mock.step Mock.initial (Mock.Change "I feel great today"))
                         Mock.ClickAnalyze)
              (Mock.TimerFired 2) in
  (Live.reachable stL /\ Live.result stL <> None /\ Live.error stL = EmptyString) /\
  (Premium.reachable stP /\ Premium.error stP <> EmptyString /\
   Premium.result stP = JNull) /\
  (Mock.reachable stM /\ Mock.error stM = EmptyString).
Proof.
  intros data raw stL stP stM.
  assert (HL : Live.reachable stL).
  { repeat (apply Live.reach_step; [|reflexivity|reflexivity]). apply Live.reach_initial. }
  assert (HP : Premium.reachable stP).
  { repeat (apply Premium.reach_step; [|reflexivity|reflexivity]). apply Premium.reach_initial. }
  assert (HM : Mock.reachable stM).
  { repeat (apply Mock.reach_step; [|reflexivity]). apply Mock.reach_initial. }
  destruct C3_result_error_exclusive as (TL & _ & TP & _ & TM & _).
  assert (NL : Live.result stL <> None) by (vm_compute; discriminate).
  assert (NP : Premium.error stP <> EmptyString) by (vm_compute; discriminate).
  split; [|split].
  - split; [exact HL|]. split; [exact NL|]. exact (proj1 (TL stL HL) NL).
  - split; [exact HP|]. split; [exact NP|]. exact (proj1 (proj2 (TP stP HP)) NP).
  - split; [exact HM|]. exact (proj1 (TM stM HM)).
Defined.

(** ** C4: a blank text sends nothing *)

Lemma live_keyDown_blank (e : KeyboardEvent) (st : Live.State) :
  blank (Live.text st) = true -> Live.handleKeyDown e st = ((key e =? "Enter") && negb (shiftKey e), st).
Proof.
  intros Hb. unfold Live.handleKeyDown. rewrite (trim_blank _ Hb). cbn.
  destruct ((key e =? "Enter") && negb (shiftKey e)); reflexivity.
Qed.

Lemma premium_keyDown_blank (e : KeyboardEvent) (st : Premium.State) :
  blank (Premium.text st) = true ->
  Premium.handleKeyDown e st = ((key e =? "Enter") && negb (shiftKey e), st).
Proof.
  intros Hb. unfold Premium.handleKeyDown. rewrite (trim_blank _ Hb). cbn.
  destruct ((key e =? "Enter") && negb (shiftKey e)); reflexivity.
Qed.

Lemma live_resetForm_inflight (st : Live.State) :
  Live.inflight (Live.resetForm st) = Live.inflight st.
Proof.
  unfold Live.resetForm, Live.focus. cbn.
  destruct (Live.textareaRef st), (Live.loading st); reflexivity.
Qed.

Lemma premium_resetForm_inflight (st : Premium.State) :
  Premium.inflight (Premium.resetForm st) = Premium.inflight st.
Proof.
  unfold Premium.resetForm, Premium.focus. cbn.
  destruct (Premium.textareaRef st), (Premium.loading st); reflexivity.
Qed.

(** C4. In every state of the live and premium variants whose text is
    empty or white space only, no user action sends a request: the submit
    button is disabled, the key handler leaves the state as it is, and no
    enabled user event changes the requests in flight. *)
Theorem C4_blank_text_sends_nothing :
  (forall (st : Live.State) (ev : Live.Event),
      blank (Live.text st) = true -> live_userAction ev = true ->
      Live.enabled st ev = true ->
      Live.inflight (Live.step st ev) = Live.inflight st) /\
  (forall (st : Live.State) (e : KeyboardEvent),
      blank (Live.text st) = true -> snd (Live.handleKeyDown e st) = st) /\
  (forall st : Live.State,
      blank (Live.text st) = true -> Live.enabled st Live.ClickPredict = false) /\
  (forall (st : Premium.State) (ev : Premium.Event),
      blank (Premium.text st) = true -> premium_userAction ev = true ->
      Premium.enabled st ev = true ->
      Premium.inflight (Premium.step st ev) = Premium.inflight st) /\
  (forall (st : Premium.State) (e : KeyboardEvent),
      blank (Premium.text st) = true -> snd (Premium.handleKeyDown e st) = st) /\
  (forall st : Premium.State,
      blank (Premium.text st) = true ->
      Premium.enabled st Premium.ClickPredict = false).
Proof.
  assert (BL : forall st, blank (Live.text st) = true ->
                          Live.enabled st Live.ClickPredict = false).
  { intros st Hb. cbn. unfold Live.buttonDisabled. rewrite (trim_blank _ Hb).
    cbn. now rewrite orb_true_r. }
  assert (BP : forall st, blank (Premium.text st) = true ->
                          Premium.enabled st Premium.ClickPredict = false).
  { intros st Hb. cbn. unfold Premium.buttonDisabled. rewrite (trim_blank _ Hb).
    cbn. now rewrite orb_true_r. }
  split; [|split; [|split; [|split; [|split]]]]; try assumption.
  - intros st ev Hb Hu Hen. unfold Live.step.
    destruct (live_commit_frame (Live.handle st ev)) as (_ & _ & _ & _ & _ & _ & Ei).
    rewrite Ei. destruct ev; cbn [Live.handle]; try reflexivity.
    + now rewrite (live_keyDown_blank e st Hb).
    + rewrite (BL st Hb) in Hen. discriminate.
    + apply live_resetForm_inflight.
    + apply live_resetForm_inflight.
    + discriminate Hu.
  - intros st e Hb. now rewrite (live_keyDown_blank e st Hb).
  - intros st ev Hb Hu Hen. unfold Premium.step.
    destruct (premium_commit_frame (Premium.handle st ev)) as (_ & _ & _ & _ & _ & _ & Ei).
    rewrite Ei. destruct ev; cbn [Premium.handle]; try reflexivity.
    + now rewrite (premium_keyDown_blank e st Hb).
    + rewrite (BP st Hb) in Hen. discriminate.
    + apply premium_resetForm_inflight.
    + discriminate Hu.
  - intros st e Hb. now rewrite (premium_keyDown_blank e st Hb).
Qed.

(** The text of three spaces: Enter and a click on the button. *)
Lemma C4_witness :
  let stL := Live.step Live.initial (Live.Change "   ") in
  let stP := Premium.step Premium.initial (Premium.Change "   ") in
  let enter := {| key := "Enter"; shiftKey := false |} in
  (Live.inflight (Live.step stL (Live.KeyDown enter)) = [] /\
   snd (Live.handleKeyDown enter stL) = stL /\
   Live.enabled stL Live.ClickPredict = false) /\
  (Premium.inflight (Premium.step stP (Premium.KeyDown enter)) = [] /\
   snd (Premium.handleKeyDown enter stP) = stP /\
   Premium.enabled stP Premium.ClickPredict = false).
Proof.
  intros stL stP enter.
  destruct C4_blank_text_sends_nothing as (L1 & L2 & L3 & P1 & P2 & P3).
  split; split; [| split | | split].
  - exact (L1 stL (Live.KeyDown enter) eq_refl eq_refl eq_refl).
  - exact (L2 stL enter eq_refl).
  - exact (L3 stL eq_refl).
  - exact (P1 stP (Premium.KeyDown enter) eq_refl eq_refl eq_refl).
  - exact (P2 stP enter eq_refl).
  - exact (P3 stP eq_refl).
Defined.

(** ** C5: Enter submits once, Shift+Enter does not *)

(** C5. For every keyboard event, in each variant: Enter without Shift,
    while the trimmed text is not empty and [loading] is false, prevents
    the default and makes exactly one call of [analyze], which starts one
    request (one timer in the mock); with Shift held the handler does
    nothing. *)
Theorem C5_enter_submits_once :
  (forall (e : KeyboardEvent) (st : Live.State),
      key e = "Enter" -> shiftKey e = false ->
      trim (Live.text st) <> EmptyString -> Live.loading st = false ->
      Live.handleKeyDown e st = (true, Live.analyze st) /\
      Live.inflight (Live.analyze st) = (Live.inflight st ++ [Live.text st])%list) /\
  (forall (e : KeyboardEvent) (st : Live.State),
      shiftKey e = true -> Live.handleKeyDown e st = (false, st)) /\
  (forall (e : KeyboardEvent) (st : Premium.State),
      key e = "Enter" -> shiftKey e = false ->
      trim (Premium.text st) <> EmptyString -> Premium.loading st = false ->
      Premium.handleKeyDown e st = (true, Premium.analyze st) /\
      Premium.inflight (Premium.analyze st) =
        (Premium.inflight st ++ [Premium.text st])%list) /\
  (forall (e : KeyboardEvent) (st : Premium.State),
      shiftKey e = true -> Premium.handleKeyDown e st = (false, st)) /\
  (forall (e : KeyboardEvent) (st : Mock.State),
      key e = "Enter" -> shiftKey e = false ->
      trim (Mock.text st) <> EmptyString -> Mock.loading st = false ->
      Mock.handleKeyDown e st = (true, Mock.analyze st) /\
      Mock.timers (Mock.analyze st) = S (Mock.timers st)) /\
  (forall (e : KeyboardEvent) (st : Mock.State),
      shiftKey e = true -> Mock.handleKeyDown e st = (false, st)).
Proof.
  split; [|split; [|split; [|split; [|split]]]].
  - intros e st Hk Hs Ht Hl. unfold Live.handleKeyDown.
    rewrite Hk, Hs, Hl, (eqb_empty_false _ Ht). split; reflexivity.
  - intros e st Hs. unfold Live.handleKeyDown. rewrite Hs, andb_false_r. reflexivity.
  - intros e st Hk Hs Ht Hl. unfold Premium.handleKeyDown.
    rewrite Hk, Hs, Hl, (eqb_empty_false _ Ht). split; reflexivity.
  - intros e st Hs. unfold Premium.handleKeyDown. rewrite Hs, andb_false_r. reflexivity.
  - intros e st Hk Hs Ht Hl. unfold Mock.handleKeyDown.
    rewrite Hk, Hs, Hl, (eqb_empty_false _ Ht). split; reflexivity.
  - intros e st Hs. unfold Mock.handleKeyDown. rewrite Hs, andb_false_r. reflexivity.
Qed.

(** Enter and Shift+Enter on the text "I feel great today". *)
Lemma C5_witness :
  let enter := {| key := "Enter"; shiftKey := false |} in
  let shiftEnter := {| key := "Enter"; shiftKey := true |} in
  let stL := Live.setText "I feel great today" Live.initial in
  let stP := Premium.setText "I feel great today" Premium.initial in
  let stM := Mock.setText "I feel great today" Mock.initial in
  (Live.handleKeyDown enter stL = (true, Live.analyze stL) /\
   Live.inflight (Live.analyze stL) = ["I feel great today"] /\
   Live.handleKeyDown shiftEnter stL = (false, stL)) /\
  (Premium.handleKeyDown enter stP = (true, Premium.analyze stP) /\
   Premium.inflight (Premium.analyze stP) = ["I feel great today"] /\
   Premium.handleKeyDown shiftEnter stP = (false, stP)) /\
  (Mock.handleKeyDown enter stM = (true, Mock.analyze stM) /\
   Mock.timers (Mock.analyze stM) = 1%nat /\
   Mock.handleKeyDown shiftEnter stM = (false, stM)).
Proof.
  intros enter shiftEnter stL stP stM.
  destruct C5_enter_submits_once as (L1 & L2 & P1 & P2 & M1 & M2).
  assert (N : forall s, s = "I feel great today" -> trim s <> EmptyString)
    by (intros s ->; vm_compute; discriminate).
  split; [|split].
  - destruct (L1 enter stL eq_refl eq_refl (N _ eq_refl) eq_refl) as [A B].
    split; [exact A|]. split; [exact B|]. exact (L2 shiftEnter stL eq_refl).
  - destruct (P1 enter stP eq_refl eq_refl (N _ eq_refl) eq_refl) as [A B].
    split; [exact A|]. split; [exact B|]. exact (P2 shiftEnter stP eq_refl).
  - destruct (M1 enter stM eq_refl eq_refl (N _ eq_refl) eq_refl) as [A B].
    split; [exact A|]. split; [exact B|]. exact (M2 shiftEnter stM eq_refl).
Defined.

(** ** C6: the message for a response that is not 2xx *)

(** C6 (amended). For every HTTP response with a non-2xx status the result
    stays null. In the live variant, when the body text can be read, the
    error message is [Backend error: <status> - ] followed by the body
    text, or by the status text when the body is empty; when reading the
    body fails, the error message is that of the failure, whatever it is.
    In the premium variant the error message is the fixed text
    [Something went wrong. Please try again.], without the body text. *)
Theorem C6_non_2xx_error_message :
  (forall (st : Live.State) (res : Response),
      ok res = false ->
      let st' := Live.analyze_settled (Resolved res) (Live.analyze st) in
      Live.result st' = None /\
      match res_text res with
      | inr body =>
          Live.error st' =
            "Backend error: " ++ showN (status res) ++ " - " ++
            (if body =? EmptyString then statusText res else body) /\
          Live.showsError st' = true
      | inl e => Live.error st' = Live.errorMessage e
      end) /\
  (forall (st : Premium.State) (res : Response),
      ok res = false ->
      let st' := Premium.analyze_settled (Resolved res) (Premium.analyze st) in
      Premium.result st' = JNull /\
      Premium.error st' = "Something went wrong. Please try again.").
Proof.
  split.
  - intros st res Hok st'.
    destruct (live_analyze_outcome (Resolved res) st) as [_ H].
    fold st' in H. cbn [Live.tryBody] in H. rewrite Hok in H. cbn [negb] in H.
    destruct (res_text res) as [e|body]; destruct H as [Hr He];
      (split; [exact Hr|]); [exact He|].
    split; [exact He|]. unfold Live.showsError. rewrite He. reflexivity.
  - intros st res Hok st'.
    destruct (premium_analyze_outcome (Resolved res) st) as [_ H].
    fold st' in H. cbn [Premium.tryBody] in H. rewrite Hok in H.
    exact H.
Qed.

(** The status 503 with the body "model not loaded", the status 404 with
    an empty body, and the status 500 with a body whose reading fails with
    an empty message: no message is shown then. *)
Lemma C6_witness :
  let stL := Live.analyze (Live.setText "so so" Live.initial) in
  let stP := Premium.analyze (Premium.setText "so so" Premium.initial) in
  let r503 := textResponse 503 "Service Unavailable" "model not loaded" in
  let r404 := textResponse 404 "Not Found" EmptyString in
  let r500 := {| status := 500; statusText := "Internal Server Error";
                 res_text := inl (ThrownError EmptyString);
                 res_json := inl (ThrownError EmptyString) |} in
  (Live.result (Live.analyze_settled (Resolved r503) stL) = None /\
   Live.error (Live.analyze_settled (Resolved r503) stL) =
     "Backend error: 503 - model not loaded" /\
   Live.showsError (Live.analyze_settled (Resolved r503) stL) = true) /\
  (Live.result (Live.analyze_settled (Resolved r404) stL) = None /\
   Live.error (Live.analyze_settled (Resolved r404) stL) =
     "Backend error: 404 - Not Found" /\
   Live.showsError (Live.analyze_settled (Resolved r404) stL) = true) /\
  (Live.result (Live.analyze_settled (Resolved r500) stL) = None /\
   Live.error (Live.analyze_settled (Resolved r500) stL) = EmptyString) /\
  (Premium.result (Premium.analyze_settled (Resolved r503) stP) = JNull /\
   Premium.error (Premium.analyze_settled (Resolved r503) stP) =
     "Something went wrong. Please try again.").
Proof.
  intros stL stP r503 r404 r500.
  split; [|split; [|split]].
  - exact (proj1 C6_non_2xx_error_message (Live.setText "so so" Live.initial)
             r503 eq_refl).
  - exact (proj1 C6_non_2xx_error_message (Live.setText "so so" Live.initial)
             r404 eq_refl).
  - exact (proj1 C6_non_2xx_error_message (Live.setText "so so" Live.initial)
             r500 eq_refl).
  - exact (proj2 C6_non_2xx_error_message (Premium.setText "so so" Premium.initial)
             r503 eq_refl).
Defined.

(** C6 as stated fails in the premium variant: after the status 503 with
    the body "model not loaded" the message shown is the fixed text, in
    which the body text does not occur. *)
Lemma C6_counterexample :
  let r503 := textResponse 503 "Service Unavailable" "model not loaded" in
  let st' := Premium.analyze_settled (Resolved r503)
               (Premium.analyze (Premium.setText "so so" Premium.initial)) in
  ok r503 = false /\
  res_text r503 = inr "model not loaded" /\
  Premium.error st' = "Something went wrong. Please try again." /\
  index 0 "model not loaded" (Premium.error st') = None.
Proof. vm_compute. repeat split. Qed.

(** ** C7: the mood label is lowercased *)




(** What the two lookups of the premium variant give for "Neutral": the
    emoji of "neutral", and the default gradient instead of the grey
    one. *)
Lemma premium_color_lookup_is_case_sensitive :
  let data := JObj [("mood", JStr "Neutral"); ("score", JNum one)] in
  let raw := "{" ++ quoted "mood" ++ ":" ++ quoted "Neutral" ++ ","
                 ++ quoted "score" ++ ":1}" in
  let st' := Premium.commit
               (Premium.analyze_settled (Resolved (jsonResponse 200 "OK" raw data))
                  (Premium.analyze (Premium.setText "so so" Premium.initial))) in
  Premium.moodColor st' = Premium.defaultColor /\
  Premium.lookupOr Premium.moodColors "neutral" Premium.defaultColor =
    TStr "from-gray-300 to-gray-500" /\
  Premium.emojiShown (Premium.result st') =
    inr (Premium.lookupOr Premium.moodEmojis "neutral" Premium.defaultEmoji).
Proof. vm_compute. repeat split. Qed.

(** ** C8: reset *)

(** C8. In every reachable state of the live and premium variants in
    which no call is running ([loading] is false, as after a success or an
    error outcome), [resetForm] sets the text to the empty string, the
    result to null and the error to the empty string, and gives the focus
    to the textarea; the buttons that call it exist only in such states,
    and the render that follows keeps these values. *)
Theorem C8_reset_clears_form :
  (forall st : Live.State,
      Live.reachable st -> Live.loading st = false ->
      let st' := Live.resetForm st in
      Live.text st' = EmptyString /\ Live.result st' = None /\
      Live.error st' = EmptyString /\ Live.focused st' = true) /\
  (forall (st : Live.State) (ev : Live.Event),
      Live.reachable st ->
      ev = Live.ClickTryAgain \/ ev = Live.ClickAnalyzeAnother ->
      Live.enabled st ev = true ->
      let st' := Live.step st ev in
      Live.text st' = EmptyString /\ Live.result st' = None /\
      Live.error st' = EmptyString /\ Live.focused st' = true) /\
  (forall st : Premium.State,
      Premium.reachable st -> Premium.loading st = false ->
      let st' := Premium.resetForm st in
      Premium.text st' = EmptyString /\ Premium.result st' = JNull /\
      Premium.error st' = EmptyString /\ Premium.focused st' = true) /\
  (forall st : Premium.State,
      Premium.reachable st ->
      Premium.enabled st Premium.ClickAnalyzeAnother = true ->
      let st' := Premium.step st Premium.ClickAnalyzeAnother in
      Premium.text st' = EmptyString /\ Premium.result st' = JNull /\
      Premium.error st' = EmptyString /\ Premium.focused st' = true).
Proof.
  assert (L : forall st : Live.State,
             Live.reachable st -> Live.loading st = false ->
             let st' := Live.resetForm st in
             Live.text st' = EmptyString /\ Live.result st' = None /\
             Live.error st' = EmptyString /\ Live.focused st' = true).
  { intros st Hr Hl. destruct (live_reachable_inv st Hr) as (Href & _ & _).
    unfold Live.resetForm, Live.focus. cbn. rewrite Href, Hl. cbn. auto. }
  assert (P : forall st : Premium.State,
             Premium.reachable st -> Premium.loading st = false ->
             let st' := Premium.resetForm st in
             Premium.text st' = EmptyString /\ Premium.result st' = JNull /\
             Premium.error st' = EmptyString /\ Premium.focused st' = true).
  { intros st Hr Hl. destruct (premium_reachable_inv st Hr) as (Href & _ & _).
    unfold Premium.resetForm, Premium.focus. cbn. rewrite Href, Hl. cbn. auto. }
  split; [exact L|]. split; [|split; [exact P|]].
  - intros st ev Hr Hev Hen st'.
    assert (Hl : Live.loading st = false).
    { destruct (live_reachable_inv st Hr) as (_ & _ & Hfl).
      destruct (Live.inflight st) as [|? [|? ?]]; [apply Hfl| |contradiction].
      destruct Hfl as (_ & Hres & He).
      destruct Hev as [-> | ->]; cbn in Hen.
      - unfold Live.showsError in Hen. rewrite He in Hen. discriminate.
      - unfold Live.showsResult in Hen. rewrite Hres in Hen. discriminate. }
    assert (E : st' = Live.commit (Live.resetForm st))
      by (subst st'; destruct Hev as [-> | ->]; reflexivity).
    destruct (live_commit_frame (Live.resetForm st)) as (Et & Er & _ & Ee & _ & Ef & _).
    rewrite E, Et, Er, Ee, Ef. exact (L st Hr Hl).
  - intros st Hr Hen st'.
    assert (Hl : Premium.loading st = false).
    { destruct (premium_reachable_inv st Hr) as (_ & _ & Hfl).
      destruct (Premium.inflight st) as [|? [|? ?]]; [apply Hfl| |contradiction].
      destruct Hfl as (_ & Hres & He). cbn in Hen.
      unfold Premium.showsResult in Hen. rewrite Hres in Hen. discriminate. }
    destruct (premium_commit_frame (Premium.resetForm st))
      as (Et & Er & _ & Ee & _ & Ef & _).
    subst st'. unfold Premium.step. cbn [Premium.handle].
    rewrite Et, Er, Ee, Ef. exact (P st Hr Hl).
Qed.

(** Reset after a success and after an error in the live variant, after a
    success in the premium variant; the textarea does not have the focus
    before the click. *)
Lemma C8_witness :
  let data := JObj [("mood", JStr "Negative"); ("prediction", JNum (of_Z 1))] in
  let raw := "{" ++ quoted "mood" ++ ":" ++ quoted "Negative" ++ ","
                 ++ quoted "prediction" ++ ":1}" in
  let good := Resolved (jsonResponse 200 "OK" raw data) in
  let bad := Resolved (textResponse 500 "Internal Server Error" "boom") in
  let after fo :=
    Live.step (Live.step (Live.step Live.initial (Live.Change "rough day"))
                         Live.ClickPredict) (Live.Settled fo) in
  let afterP :=
    Premium.step (Premium.step (Premium.step Premium.initial
                                             (Premium.Change "rough day"))
                               Premium.ClickPredict) (Premium.Settled good) in
  (Live.focused (after good) = false /\
   let st' := Live.step (after good) Live.ClickAnalyzeAnother in
   Live.text st' = EmptyString /\ Live.result st' = None /\
   Live.error st' = EmptyString /\ Live.focused st' = true) /\
  (Live.error (after bad) = "Backend error: 500 - boom" /\
   let st' := Live.step (after bad) Live.ClickTryAgain in
   Live.text st' = EmptyString /\ Live.result st' = None /\
   Live.error st' = EmptyString /\ Live.focused st' = true) /\
  (Premium.result afterP = data /\
   let st' := Premium.step afterP Premium.ClickAnalyzeAnother in
   Premium.text st' = EmptyString /\ Premium.result st' = JNull /\
   Premium.error st' = EmptyString /\ Premium.focused st' = true).
Proof.
  intros data raw good bad after afterP.
  assert (HLg : Live.reachable (after good)).
  { repeat (apply Live.reach_step; [|reflexivity|reflexivity]). apply Live.reach_initial. }
  assert (HLb : Live.reachable (after bad)).
  { repeat (apply Live.reach_step; [|reflexivity|reflexivity]). apply Live.reach_initial. }
  assert (HP : Premium.reachable afterP).
  { repeat (apply Premium.reach_step; [|reflexivity|reflexivity]). apply Premium.reach_initial. }
  destruct C8_reset_clears_form as (_ & L & _ & P).
  split; [|split].
  - split; [reflexivity|].
    exact (L (after good) Live.ClickAnalyzeAnother HLg (or_intror eq_refl) eq_refl).
  - split; [reflexivity|].
    exact (L (after bad) Live.ClickTryAgain HLb (or_introl eq_refl) eq_refl).
  - split; [reflexivity|].
    exact (P afterP HP eq_refl).
Defined.

(** ** C9: a completed call leaves [loading] false *)

Lemma live_loading_pending (st : Live.State) :
  Live.reachable st -> Live.inflight st = [] -> Live.loading st = false.
Proof.
  intros Hr Hi. destruct (live_reachable_inv st Hr) as (_ & _ & Hfl).
  rewrite Hi in Hfl. apply Hfl.
Qed.

Lemma premium_loading_pending (st : Premium.State) :
  Premium.reachable st -> Premium.inflight st = [] -> Premium.loading st = false.
Proof.
  intros Hr Hi. destruct (premium_reachable_inv st Hr) as (_ & _ & Hfl).
  rewrite Hi in Hfl. apply Hfl.
Qed.

Lemma mock_loading_pending (st : Mock.State) :
  Mock.reachable st -> Mock.timers st = O -> Mock.loading st = false.
Proof.
  intros Hr Hi. destruct (mock_reachable_inv st Hr) as (_ & _ & Hfl).
  rewrite Hi in Hfl. apply Hfl.
Qed.

(** With no result on the page, the render after an error outcome does
    not throw. *)
Lemma live_error_renders (fo : FetchOutcome) (e : Thrown) (st : Live.State) :
  Live.result st = None -> Live.tryBody fo = inl e ->
  Live.unmounts st (Live.Settled fo) = false.
Proof.
  intros Hres He.
  unfold Live.unmounts, Live.throws, Live.render, Live.renderCard,
    Live.useEffect_result.
  cbn [Live.handle]. unfold Live.analyze_settled. rewrite He. cbn.
  rewrite Hres. destruct (Live.resultDirty st); reflexivity.
Qed.

Lemma premium_error_renders (fo : FetchOutcome) (e : Thrown) (st : Premium.State) :
  Premium.result st = JNull -> Premium.tryBody fo = inl e ->
  Premium.unmounts st (Premium.Settled fo) = false.
Proof.
  intros Hres He.
  unfold Premium.unmounts, Premium.throws, Premium.render, Premium.renderCard,
    Premium.useEffect_result.
  cbn [Premium.handle]. unfold Premium.analyze_settled. rewrite He. cbn.
  rewrite Hres. destruct (Premium.resultDirty st); reflexivity.
Qed.

(** C9. In each variant, every completed call of [analyze], however the
    request settled, leaves [loading] false. In the live and premium
    variants, when the call ends in an error the page renders, the
    textarea is enabled again and the button is disabled only by a blank
    text; the same holds after a success whenever the result renders. In
    every reachable state with no call pending [loading] is false. *)
Theorem C9_loading_cleared :
  (forall (fo : FetchOutcome) (st : Live.State),
      Live.loading (Live.analyze_settled fo st) = false /\
      Live.loading (Live.step st (Live.Settled fo)) = false) /\
  (forall (fo : FetchOutcome) (e : Thrown) (st : Live.State),
      Live.reachable st -> Live.enabled st (Live.Settled fo) = true ->
      Live.tryBody fo = inl e ->
      let st' := Live.step st (Live.Settled fo) in
      Live.unmounts st (Live.Settled fo) = false /\
      Live.reachable st' /\
      Live.textareaDisabled st' = false /\
      Live.buttonDisabled st' = (trim (Live.text st) =? EmptyString)) /\
  (forall (fo : FetchOutcome) (st : Live.State),
      Live.unmounts st (Live.Settled fo) = false ->
      let st' := Live.step st (Live.Settled fo) in
      Live.textareaDisabled st' = false /\
      Live.buttonDisabled st' = (trim (Live.text st) =? EmptyString)) /\
  (forall st : Live.State,
      Live.reachable st -> Live.inflight st = [] -> Live.loading st = false) /\
  (forall (fo : FetchOutcome) (st : Premium.State),
      Premium.loading (Premium.analyze_settled fo st) = false /\
      Premium.loading (Premium.step st (Premium.Settled fo)) = false) /\
  (forall (fo : FetchOutcome) (e : Thrown) (st : Premium.State),
      Premium.reachable st -> Premium.enabled st (Premium.Settled fo) = true ->
      Premium.tryBody fo = inl e ->
      let st' := Premium.step st (Premium.Settled fo) in
      Premium.unmounts st (Premium.Settled fo) = false /\
      Premium.reachable st' /\
      Premium.textareaDisabled st' = false /\
      Premium.buttonDisabled st' = (trim (Premium.text st) =? EmptyString)) /\
  (forall (fo : FetchOutcome) (st : Premium.State),
      Premium.unmounts st (Premium.Settled fo) = false ->
      let st' := Premium.step st (Premium.Settled fo) in
      Premium.textareaDisabled st' = false /\
      Premium.buttonDisabled st' = (trim (Premium.text st) =? EmptyString)) /\
  (forall st : Premium.State,
      Premium.reachable st -> Premium.inflight st = [] ->
      Premium.loading st = false) /\
  (forall (i : nat) (st : Mock.State),
      let st' := Mock.step st (Mock.TimerFired i) in
      Mock.loading (Mock.analyze_settled i st) = false /\
      Mock.loading st' = false /\
      Mock.textareaDisabled st' = false /\
      Mock.buttonDisabled st' = (trim (Mock.text st) =? EmptyString)) /\
  (forall st : Mock.State,
      Mock.reachable st -> Mock.timers st = O -> Mock.loading st = false).
Proof.
  assert (L : forall fo st,
             Live.loading (Live.step st (Live.Settled fo)) = false /\
             Live.text (Live.step st (Live.Settled fo)) = Live.text st).
  { intros fo st. unfold Live.step.
    destruct (live_commit_frame (Live.handle st (Live.Settled fo)))
      as (Et & _ & El & _).
    rewrite Et, El. cbn [Live.handle]. unfold Live.analyze_settled.
    destruct (Live.tryBody fo); cbn; auto. }
  assert (P : forall fo st,
             Premium.loading (Premium.step st (Premium.Settled fo)) = false /\
             Premium.text (Premium.step st (Premium.Settled fo)) = Premium.text st).
  { intros fo st. unfold Premium.step.
    destruct (premium_commit_frame (Premium.handle st (Premium.Settled fo)))
      as (Et & _ & El & _).
    rewrite Et, El. cbn [Premium.handle]. unfold Premium.analyze_settled.
    destruct (Premium.tryBody fo); cbn; auto. }
  assert (L' : forall fo st,
             Live.textareaDisabled (Live.step st (Live.Settled fo)) = false /\
             Live.buttonDisabled (Live.step st (Live.Settled fo)) =
               (trim (Live.text st) =? EmptyString)).
  { intros fo st. unfold Live.textareaDisabled, Live.buttonDisabled.
    destruct (L fo st) as [-> ->]. auto. }
  assert (P' : forall fo st,
             Premium.textareaDisabled (Premium.step st (Premium.Settled fo)) = false /\
             Premium.buttonDisabled (Premium.step st (Premium.Settled fo)) =
               (trim (Premium.text st) =? EmptyString)).
  { intros fo st. unfold Premium.textareaDisabled, Premium.buttonDisabled.
    destruct (P fo st) as [-> ->]. auto. }
  repeat match goal with |- _ /\ _ => split end.
  - intros fo st. split; [|apply L].
    unfold Live.analyze_settled. destruct (Live.tryBody fo); reflexivity.
  - intros fo e st Hr Hen He st'.
    destruct (live_reachable_inv st Hr) as (_ & Hd & Hfl).
    assert (Hres : Live.result st = None).
    { cbn [Live.enabled] in Hen.
      destruct (Live.inflight st) as [|? [|? ?]]; [discriminate| |contradiction].
      apply Hfl. }
    pose proof (live_error_renders fo e st Hres He) as Hnt.
    split; [exact Hnt|]. split; [apply Live.reach_step; assumption|]. apply L'.
  - intros fo st _ st'. apply L'.
  - exact live_loading_pending.
  - intros fo st. split; [|apply P].
    unfold Premium.analyze_settled. destruct (Premium.tryBody fo); reflexivity.
  - intros fo e st Hr Hen He st'.
    destruct (premium_reachable_inv st Hr) as (_ & Hd & Hfl).
    assert (Hres : Premium.result st = JNull).
    { cbn [Premium.enabled] in Hen.
      destruct (Premium.inflight st) as [|? [|? ?]]; [discriminate| |contradiction].
      apply Hfl. }
    pose proof (premium_error_renders fo e st Hres He) as Hnt.
    split; [exact Hnt|]. split; [apply Premium.reach_step; assumption|]. apply P'.
  - intros fo st _ st'. apply P'.
  - exact premium_loading_pending.
  - intros i st st'. subst st'.
    unfold Mock.step, Mock.textareaDisabled, Mock.buttonDisabled.
    destruct (mock_render_frame (Mock.handle st (Mock.TimerFired i)))
      as (Et & _ & El & _).
    rewrite Et, El. cbn. auto.
  - exact mock_loading_pending.
Qed.

(** A rejected fetch, a response that is not JSON and a fired timer. *)
Lemma C9_witness :
  let stL := Live.step (Live.step Live.initial (Live.Change "rough day"))
                       Live.ClickPredict in
  let foL := Rejected (ThrownError "Failed to fetch") in
  let stL' := Live.step stL (Live.Settled foL) in
  let stP := Premium.step (Premium.step Premium.initial (Premium.Change "rough day"))
                          Premium.ClickPredict in
  let foP := Resolved (textResponse 200 "OK" "<html>") in
  let stP' := Premium.step stP (Premium.Settled foP) in
  let stM := Mock.step (Mock.step Mock.initial (Mock.Change "rough day"))
                       Mock.ClickAnalyze in
  let stM' := Mock.step stM (Mock.TimerFired 4) in
  (Live.loading stL = true /\ Live.loading stL' = false /\
   Live.unmounts stL (Live.Settled foL) = false /\ Live.reachable stL' /\
   Live.textareaDisabled stL' = false /\ Live.buttonDisabled stL' = false) /\
  (Premium.loading stP = true /\ Premium.loading stP' = false /\
   Premium.unmounts stP (Premium.Settled foP) = false /\ Premium.reachable stP' /\
   Premium.textareaDisabled stP' = false /\ Premium.buttonDisabled stP' = false) /\
  (Mock.loading stM = true /\ Mock.reachable stM' /\ Mock.loading stM' = false).
Proof.
  intros stL foL stL' stP foP stP' stM stM'.
  assert (HL : Live.reachable stL).
  { repeat (apply Live.reach_step; [|reflexivity|reflexivity]). apply Live.reach_initial. }
  assert (HP : Premium.reachable stP).
  { repeat (apply Premium.reach_step; [|reflexivity|reflexivity]).
    apply Premium.reach_initial. }
  assert (HM : Mock.reachable stM').
  { repeat (apply Mock.reach_step; [|reflexivity]). apply Mock.reach_initial. }
  destruct C9_loading_cleared as (L1 & L2 & _ & _ & P1 & P2 & _ & _ & _ & M).
  split; [|split].
  - split; [reflexivity|]. split; [exact (proj2 (L1 foL stL))|].
    exact (L2 foL (ThrownError "Failed to fetch") stL HL eq_refl eq_refl).
  - split; [reflexivity|]. split; [exact (proj2 (P1 foP stP))|].
    exact (P2 foP (ThrownError "Unexpected token in JSON") stP HP eq_refl eq_refl).
  - split; [reflexivity|]. split; [exact HM|]. exact (M stM' HM eq_refl).
Defined.

(** ** C10: reset keeps the gradient *)

Lemma live_commit_id (st : Live.State) :
  Live.resultDirty st = false -> Live.commit st = st.
Proof.
  intros H. unfold Live.commit, Live.render. rewrite H.
  destruct (Live.renderCard st); reflexivity.
Qed.

Lemma live_commit_null (st : Live.State) :
  Live.result st = None -> Live.moodColor (Live.commit st) = Live.moodColor st.
Proof.
  intros H. unfold Live.commit, Live.render, Live.renderCard, Live.useEffect_result.
  rewrite H. destruct (Live.resultDirty st); reflexivity.
Qed.

Lemma premium_commit_id (st : Premium.State) :
  Premium.resultDirty st = false -> Premium.commit st = st.
Proof.
  intros H. unfold Premium.commit, Premium.render. rewrite H.
  destruct (Premium.renderCard st); reflexivity.
Qed.

Lemma premium_commit_null (st : Premium.State) :
  Premium.result st = JNull ->
  Premium.moodColor (Premium.commit st) = Premium.moodColor st.
Proof.
  intros H.
  unfold Premium.commit, Premium.render, Premium.renderCard, Premium.useEffect_result.
  rewrite H. destruct (Premium.resultDirty st); reflexivity.
Qed.

Lemma mock_render_id (st : Mock.State) :
  Mock.resultDirty st = false -> Mock.render st = st.
Proof. intros H. unfold Mock.render. now rewrite H. Qed.

Lemma mock_render_null (st : Mock.State) :
  Mock.result st = None -> Mock.moodColor (Mock.render st) = Mock.moodColor st.
Proof.
  intros H. unfold Mock.render, Mock.useEffect_result. rewrite H.
  destruct (Mock.resultDirty st); reflexivity.
Qed.

Lemma live_resetForm_frame (st : Live.State) :
  Live.moodColor (Live.resetForm st) = Live.moodColor st /\
  Live.result (Live.resetForm st) = None.
Proof.
  unfold Live.resetForm, Live.focus. cbn.
  destruct (Live.textareaRef st), (Live.loading st); split; reflexivity.
Qed.

Lemma premium_resetForm_frame (st : Premium.State) :
  Premium.moodColor (Premium.resetForm st) = Premium.moodColor st /\
  Premium.result (Premium.resetForm st) = JNull.
Proof.
  unfold Premium.resetForm, Premium.focus. cbn.
  destruct (Premium.textareaRef st), (Premium.loading st); split; reflexivity.
Qed.

(** Every step but the settlement of a request leaves the gradient. *)
Lemma live_step_moodColor (st : Live.State) (ev : Live.Event) :
  Live.resultDirty st = false ->
  (forall fo r, ev = Live.Settled fo -> Live.tryBody fo <> inr r) ->
  Live.moodColor (Live.step st ev) = Live.moodColor st.
Proof.
  intros Hd Hev. unfold Live.step.
  destruct ev as [v|e| | | | | |fo]; cbn [Live.handle].
  - now rewrite live_commit_id.
  - unfold Live.handleKeyDown.
    destruct ((key e =? "Enter") && negb (shiftKey e)); cbn [snd];
      [|now rewrite live_commit_id].
    destruct (negb (trim (Live.text st) =? EmptyString) && negb (Live.loading st));
      [|now rewrite live_commit_id].
    now rewrite live_commit_null.
  - now rewrite live_commit_null.
  - destruct (live_resetForm_frame st) as [Ec Er]. now rewrite (live_commit_null _ Er).
  - destruct (live_resetForm_frame st) as [Ec Er]. now rewrite (live_commit_null _ Er).
  - now rewrite live_commit_id.
  - now rewrite live_commit_id.
  - unfold Live.analyze_settled.
    destruct (Live.tryBody fo) as [err|r] eqn:E.
    + now rewrite live_commit_id.
    + exfalso. exact (Hev fo r eq_refl E).
Qed.

Lemma premium_step_moodColor (st : Premium.State) (ev : Premium.Event) :
  Premium.resultDirty st = false ->
  (forall fo data, ev = Premium.Settled fo -> Premium.tryBody fo <> inr data) ->
  Premium.moodColor (Premium.step st ev) = Premium.moodColor st.
Proof.
  intros Hd Hev. unfold Premium.step.
  destruct ev as [v|e| | | | |fo]; cbn [Premium.handle].
  - now rewrite premium_commit_id.
  - unfold Premium.handleKeyDown.
    destruct ((key e =? "Enter") && negb (shiftKey e)); cbn [snd];
      [|now rewrite premium_commit_id].
    destruct (negb (trim (Premium.text st) =? EmptyString) && negb (Premium.loading st));
      [|now rewrite premium_commit_id].
    now rewrite premium_commit_null.
  - now rewrite premium_commit_null.
  - destruct (premium_resetForm_frame st) as [Ec Er].
    now rewrite (premium_commit_null _ Er).
  - now rewrite premium_commit_id.
  - now rewrite premium_commit_id.
  - unfold Premium.analyze_settled.
    destruct (Premium.tryBody fo) as [err|data] eqn:E.
    + now rewrite premium_commit_id.
    + exfalso. exact (Hev fo data eq_refl E).
Qed.

Lemma mock_step_moodColor (st : Mock.State) (ev : Mock.Event) :
  Mock.resultDirty st = false ->
  (forall i, ev <> Mock.TimerFired i) -> (forall m, ev <> Mock.ClickSample m) ->
  Mock.moodColor (Mock.step st ev) = Mock.moodColor st.
Proof.
  intros Hd Ht Hs. unfold Mock.step.
  destruct ev as [v|e| | |m|i]; cbn [Mock.handle].
  - now rewrite mock_render_id.
  - unfold Mock.handleKeyDown.
    destruct ((key e =? "Enter") && negb (shiftKey e)); cbn [snd];
      [|now rewrite mock_render_id].
    destruct (negb (trim (Mock.text st) =? EmptyString) && negb (Mock.loading st));
      [|now rewrite mock_render_id].
    now rewrite mock_render_null.
  - now rewrite mock_render_null.
  - now rewrite mock_render_null.
  - exfalso. exact (Hs m eq_refl).
  - exfalso. exact (Ht i eq_refl).
Qed.

(** C10. [resetForm] leaves [moodColor] as it is, and so does the step of
    each reset button: the gradient of the last analysed mood stays. In
    every variant a step changes [moodColor] only when it is the
    settlement of a call that stores a result or, in the mock, a click on
    a sample mood. *)
Theorem C10_reset_keeps_moodColor :
  (forall st : Live.State,
      Live.moodColor (Live.resetForm st) = Live.moodColor st) /\
  (forall (st : Live.State) (ev : Live.Event),
      Live.resultDirty st = false ->
      ev = Live.ClickTryAgain \/ ev = Live.ClickAnalyzeAnother ->
      Live.moodColor (Live.step st ev) = Live.moodColor st) /\
  (forall (st : Live.State) (ev : Live.Event),
      Live.resultDirty st = false ->
      Live.moodColor (Live.step st ev) <> Live.moodColor st ->
      exists fo r, ev = Live.Settled fo /\ Live.tryBody fo = inr r) /\
  (forall st : Premium.State,
      Premium.moodColor (Premium.resetForm st) = Premium.moodColor st) /\
  (forall st : Premium.State,
      Premium.resultDirty st = false ->
      Premium.moodColor (Premium.step st Premium.ClickAnalyzeAnother) =
        Premium.moodColor st) /\
  (forall (st : Premium.State) (ev : Premium.Event),
      Premium.resultDirty st = false ->
      Premium.moodColor (Premium.step st ev) <> Premium.moodColor st ->
      exists fo data, ev = Premium.Settled fo /\ Premium.tryBody fo = inr data) /\
  (forall (st : Mock.State) (ev : Mock.Event),
      Mock.resultDirty st = false ->
      Mock.moodColor (Mock.step st ev) <> Mock.moodColor st ->
      (exists i, ev = Mock.TimerFired i) \/ (exists m, ev = Mock.ClickSample m)).
Proof.
  split; [intros st; apply live_resetForm_frame|].
  split; [intros st ev Hd [-> | ->]; apply live_step_moodColor;
          solve [exact Hd | discriminate]|].
  split; [|split; [intros st; apply premium_resetForm_frame|]].
  2: split; [intros st Hd; apply premium_step_moodColor;
             solve [exact Hd | discriminate]|split].
  - intros st ev Hd Hne.
    destruct ev as [v|e| | | | | |fo];
      try (exfalso; apply Hne; apply live_step_moodColor; [exact Hd|discriminate]).
    destruct (Live.tryBody fo) as [err|r] eqn:E; [|eauto].
    exfalso; apply Hne; apply live_step_moodColor; [exact Hd|].
    intros fo' r' [= <-]. congruence.
  - intros st ev Hd Hne.
    destruct ev as [v|e| | | | |fo];
      try (exfalso; apply Hne; apply premium_step_moodColor; [exact Hd|discriminate]).
    destruct (Premium.tryBody fo) as [err|data] eqn:E; [|eauto].
    exfalso; apply Hne; apply premium_step_moodColor; [exact Hd|].
    intros fo' r' [= <-]. congruence.
  - intros st ev Hd Hne.
    destruct ev as [v|e| | |m|i]; eauto;
      exfalso; apply Hne; apply mock_step_moodColor;
        solve [exact Hd | discriminate].
Qed.

(** After the mood "negative" the gradient is the red one; the reset
    button leaves it, and it is not the default gradient. In the mock a
    click on the sample mood "happy" changes the gradient. *)
Lemma C10_witness :
  let data := JObj [("mood", JStr "Negative"); ("prediction", JNum (of_Z 1))] in
  let raw := "{" ++ quoted "mood" ++ ":" ++ quoted "Negative" ++ ","
                 ++ quoted "prediction" ++ ":1}" in
  let fo := Resolved (jsonResponse 200 "OK" raw data) in
  let sent := Live.step (Live.step Live.initial (Live.Change "rough day"))
                        Live.ClickPredict in
  let shown := Live.step sent (Live.Settled fo) in
  (Live.moodColor sent = Live.defaultColor /\
   Live.moodColor shown = "from-red-300 to-red-500" /\
   Live.moodColor (Live.resetForm shown) = "from-red-300 to-red-500" /\
   Live.moodColor (Live.step shown Live.ClickAnalyzeAnother) =
     "from-red-300 to-red-500" /\
   exists fo' r, Live.Settled fo = Live.Settled fo' /\ Live.tryBody fo' = inr r) /\
  (Mock.moodColor (Mock.step Mock.initial (Mock.ClickSample "happy")) =
     "from-yellow-300 to-yellow-500" /\
   ((exists i, Mock.ClickSample "happy" = Mock.TimerFired i) \/
    (exists m, Mock.ClickSample "happy" = Mock.ClickSample m))).
Proof.
  intros data raw fo sent shown.
  destruct C10_reset_keeps_moodColor as (L1 & L2 & L3 & _ & _ & _ & M).
  split.
  - split; [reflexivity|]. split; [reflexivity|].
    split; [exact (L1 shown)|].
    split; [exact (L2 shown Live.ClickAnalyzeAnother eq_refl (or_intror eq_refl))|].
    apply (L3 sent (Live.Settled fo) eq_refl).
    vm_compute. discriminate.
  - split; [reflexivity|].
    apply (M Mock.initial (Mock.ClickSample "happy") eq_refl).
    vm_compute. discriminate.
Defined.

(** * More of the pages

    What the render shows besides the controls, and properties of the
    pages beyond the claims. *)

Module Blocks.
Import JS Http.

(** The last block of the live page: [!result && !loading && !error]. *)
Definition live_howItWorks (st : Live.State) : bool :=
  negb (Live.showsResult st) && negb (Live.loading st) && negb (Live.showsError st).

(** The error alert of the premium page, [error && ...], and its last
    block, [!result && !loading]. *)
Definition premium_showsError (st : Premium.State) : bool :=
  negb (Premium.error st =? EmptyString).

Definition premium_howItWorks (st : Premium.State) : bool :=
  negb (Premium.showsResult st) && negb (Premium.loading st).

(** The error alert of the mock page, and the block of the recent moods,
    [!result && !loading]. *)
Definition mock_showsError (st : Mock.State) : bool :=
  negb (Mock.error st =? EmptyString).

Definition mock_recentMoods (st : Mock.State) : bool :=
  negb (Mock.showsResult st) && negb (Mock.loading st).

(** [moodEmojis[result.mood] || ...] in the result block of the mock. *)
Definition mock_emojiShown (r : Mock.PredictionResult) : string :=
  Mock.lookupOr Mock.moodEmojis (Mock.mood r) Mock.defaultEmoji.

(** The values that have no [toLowerCase] and are not nullish: on them
    [mood?.toLowerCase()] throws. *)
Definition hasNoToLowerCase (m : JValue) : bool :=
  match m with
  | JBool _ | JNum _ | JArr _ | JObj _ => true
  | _ => false
  end.

(** How many of the conditions hold. *)
Definition countTrue (l : list bool) : nat := List.length (filter (fun b => b) l).

End Blocks.

Import Blocks.

(** ** The score is not clamped *)

Section ScoreBounds.
Local Open Scope Z_scope.

(** [x / 4 <= 1] exactly when [x <= 4]. *)
Lemma div4_leb_one (x : number) :
  wf_number x = true -> num_leb (num_div x four) one = num_leb x four.
Proof.
  destruct x as [s|s| |s m e]; intros Hwf; try reflexivity.
  - destruct s; reflexivity.
  - cbn [wf_number valid_binary] in Hwf.
    destruct (canonical_cases m e Hwf) as [[Hd He]|[Hd He]].
    + rewrite (div4_normal s m e Hd He).
      unfold num_leb, SFleb, four, one. cbn [SFcompare].
      destruct s; [reflexivity|].
      rewrite (Z.compare_sub (e - 2)), (Z.compare_sub e).
      replace (e - 2 - -52) with (e - -50) by lia. reflexivity.
    + assert (R : num_leb (S754_finite s m e) four = true).
      { unfold num_leb, SFleb, four. cbn [SFcompare]. destruct s; [reflexivity|].
        replace (e ?= -50) with Lt; [reflexivity|].
        symmetry. apply Z.compare_lt_iff. lia. }
      rewrite R.
      destruct (div4_bottom s m e Hd He) as [E|(m' & e' & E & He')]; rewrite E.
      * destruct s; reflexivity.
      * unfold num_leb, SFleb, one. cbn [SFcompare]. destruct s; [reflexivity|].
        replace (e' ?= -52) with Lt; [reflexivity|].
        symmetry. apply Z.compare_lt_iff. lia.
Qed.

(** [x <= 0] gives [x / 4 <= 0]. *)
Lemma div4_leb_zero (x : number) :
  wf_number x = true -> num_leb x zero = true -> num_leb (num_div x four) zero = true.
Proof.
  destruct x as [s|s| |[|] m e]; intros Hwf H0; try discriminate H0.
  - destruct s; reflexivity.
  - destruct s; [reflexivity|discriminate].
  - cbn [wf_number valid_binary] in Hwf.
    destruct (canonical_cases m e Hwf) as [[Hd He]|[Hd He]].
    + rewrite (div4_normal true m e Hd He). reflexivity.
    + destruct (div4_bottom true m e Hd He) as [E|(m' & e' & E & He')]; rewrite E;
        reflexivity.
Qed.

End ScoreBounds.

Section LiveAccepts.
Import Live.

(** What the validation lets through is well formed. *)
Lemma live_normalize_stored (data : JValue) (r : PredictionResult) :
  normalize data = inr r ->
  (mood r =? EmptyString) = false /\
  toLowerCase (mood r) = mood r /\
  isNaN (score r) = false.
Proof.
  intros Hn. pose proof (live_normalize_spec data) as Hs.
  unfold live_rejects in Hs.
  destruct (nonEmptyString (getPropOpt data "mood")) eqn:Hne; cbn [negb orb] in Hs.
  2:{ destruct Hs as (e & En & _). congruence. }
  destruct (isUndefined (getPropOpt data "prediction")); cbn [orb] in Hs.
  { destruct Hs as (e & En & _). congruence. }
  destruct (match scoreOf (getPropOpt data "prediction") with
            | inl _ => true
            | inr score => isNaN score
            end).
  { destruct Hs as (e & En & _). congruence. }
  destruct Hs as (s & x & Hm & _ & Hnan & En). rewrite En in Hn. injection Hn as <-.
  rewrite Hm in Hne. cbn [nonEmptyString] in Hne. cbn [mood score].
  split; [destruct s; [discriminate Hne|reflexivity]|].
  split; [apply toLowerCase_idempotent|exact Hnan].
Qed.

Lemma live_tryBody_stored (fo : FetchOutcome) (r : PredictionResult) :
  tryBody fo = inr r ->
  (mood r =? EmptyString) = false /\
  toLowerCase (mood r) = mood r /\
  isNaN (score r) = false.
Proof.
  destruct fo as [e|res]; cbn [tryBody]; [discriminate|].
  destruct (negb (ok res)).
  - destruct (res_text res); discriminate.
  - destruct (res_json res) as [e|data]; [discriminate|].
    apply live_normalize_stored.
Qed.

End LiveAccepts.

(** ** Numeric predictions of any size *)

(** X1. A numeric prediction is never turned down for its size: with a
    non-empty mood, every prediction that is a number is stored, the
    stored score is at most 1 exactly when the prediction is at most 4,
    and a prediction that is at most 0 gives a score that is at most 0.
    The score is not clamped to [0,1]. *)
Theorem live_score_is_not_clamped :
  forall (st : Live.State) (res : Response) (data : JValue) (s : string) (n : number),
    ok res = true -> res_json res = inr data ->
    getProp data "mood" = inr (JStr s) -> s <> EmptyString ->
    getProp data "prediction" = inr (JNum n) ->
    wf_number n = true -> isNaN n = false ->
    let st' := Live.analyze_settled (Resolved res) (Live.analyze st) in
    Live.error st' = EmptyString /\
    exists r,
      Live.result st' = Some r /\
      Live.score r = num_div n four /\
      num_leb (Live.score r) one = num_leb n four /\
      (num_leb n zero = true -> num_leb (Live.score r) zero = true).
Proof.
  intros st res data s n Hok Hj Hm Hs Hp Hwf Hnan st'.
  destruct (live_analyze_outcome (Resolved res) st) as [_ H]. fold st' in H.
  rewrite (live_tryBody_ok res data Hok Hj) in H.
  assert (E : Live.normalize data =
              inr {| Live.mood := toLowerCase s; Live.score := num_div n four |}).
  { unfold Live.normalize. rewrite Hm, Hp. cbn [truthy Live.scoreOf].
    rewrite (eqb_empty_false s Hs), (div4_isNaN n Hwf), Hnan. reflexivity. }
  rewrite E in H. destruct H as [Hr He].
  split; [exact He|]. eexists. split; [exact Hr|]. cbn [Live.score].
  split; [reflexivity|]. split; [apply div4_leb_one; exact Hwf|].
  apply div4_leb_zero; exact Hwf.
Qed.

(** The predictions 8 and -2: the scores 2 and -1/2 are stored. *)
Lemma live_score_is_not_clamped_witness :
  let body n := JObj [("mood", JStr "Positive"); ("prediction", JNum (of_Z n))] in
  let raw8 := "{" ++ quoted "mood" ++ ":" ++ quoted "Positive" ++ ","
                  ++ quoted "prediction" ++ ":8}" in
  let rawm2 := "{" ++ quoted "mood" ++ ":" ++ quoted "Positive" ++ ","
                   ++ quoted "prediction" ++ ":-2}" in
  let st := Live.setText "I feel great today" Live.initial in
  let st8 := Live.analyze_settled (Resolved (jsonResponse 200 "OK" raw8 (body 8%Z)))
                                  (Live.analyze st) in
  let stm2 := Live.analyze_settled (Resolved (jsonResponse 200 "OK" rawm2 (body (-2)%Z)))
                                   (Live.analyze st) in
  (Live.error st8 = EmptyString /\
   exists r, Live.result st8 = Some r /\
             Live.score r = num_div (of_Z 8) four /\
             num_leb (Live.score r) one = false /\
             (num_leb (of_Z 8) zero = true -> num_leb (Live.score r) zero = true)) /\
  (Live.error stm2 = EmptyString /\
   exists r, Live.result stm2 = Some r /\
             Live.score r = num_div (of_Z (-2)) four /\
             num_leb (Live.score r) one = true /\
             num_leb (Live.score r) zero = true).
Proof.
  intros body raw8 rawm2 st st8 stm2. split.
  - exact (live_score_is_not_clamped st (jsonResponse 200 "OK" raw8 (body 8%Z))
             (body 8%Z) "Positive" (of_Z 8) eq_refl eq_refl eq_refl
             ltac:(discriminate) eq_refl eq_refl eq_refl).
  - destruct (live_score_is_not_clamped st (jsonResponse 200 "OK" rawm2 (body (-2)%Z))
                (body (-2)%Z) "Positive" (of_Z (-2)) eq_refl eq_refl eq_refl
                ltac:(discriminate) eq_refl eq_refl eq_refl)
      as (He & r & Hr & Hs & H1 & H0).
    split; [exact He|]. exists r.
    split; [exact Hr|]. split; [exact Hs|]. split; [exact H1|].
    exact (H0 eq_refl).
Defined.

(** ** What is pending, and what a shown result looks like *)

Module Pending.
Import JS Http React.

(** The request in flight carries the text on the page, and that text is
    not blank; a result on the page is well formed, and when the lookup of
    its mood gives a string the gradient is that string. *)
Definition live_sound (st : Live.State) : Prop :=
  (forall b, In b (Live.inflight st) ->
             b = Live.text st /\ (trim b =? EmptyString) = false) /\
  (forall r, Live.result st = Some r ->
             (Live.mood r =? EmptyString) = false /\
             toLowerCase (Live.mood r) = Live.mood r /\
             isNaN (Live.score r) = false /\
             forall c,
               Live.lookupOr Live.moodColors (Live.mood r) Live.defaultColor = TStr c ->
               Live.moodColor st = VStr c).

Definition premium_sound (st : Premium.State) : Prop :=
  (forall b, In b (Premium.inflight st) ->
             b = Premium.text st /\ (trim b =? EmptyString) = false) /\
  (truthy (getPropOpt (Premium.result st) "mood") = true ->
   forall c, Premium.colorOf (Premium.result st) = inr (TStr c) ->
             Premium.moodColor st = VStr c).

Definition mock_sound (st : Mock.State) : Prop :=
  (Mock.loading st = true -> (trim (Mock.text st) =? EmptyString) = false) /\
  (forall r, Mock.result st = Some r ->
             In r Mock.mockResponses /\
             Mock.activeMood st = Mock.mood r /\
             Mock.moodColor st =
               Mock.lookupOr Mock.moodColors (Mock.mood r) Mock.defaultColor).

End Pending.

Import Pending.

Section LiveSound.
Import Live.

(** The render after a result was stored, when it does not throw, sets
    the gradient the lookup gives. *)
Lemma live_commit_stored (st : State) (r : PredictionResult) (c : string) :
  (mood r =? EmptyString) = false ->
  lookupOr moodColors (mood r) defaultColor = TStr c ->
  throws (setLoading false (setResult (Some r) st)) = false ->
  moodColor (commit (setLoading false (setResult (Some r) st))) = VStr c.
Proof.
  intros Hm Hc. unfold throws, commit, render, useEffect_result, colorKey.
  destruct (renderCard _); [discriminate|].
  cbn [resultDirty setLoading setResult result moodColor].
  rewrite orb_true_r, Hm, Hc. reflexivity.
Qed.

Lemma live_sound_analyze (st : State) :
  resultDirty st = false -> inflight st = [] ->
  (trim (text st) =? EmptyString) = false ->
  live_sound (commit (analyze st)).
Proof.
  intros Hd Hi Ht. split.
  - destruct (live_commit_frame (analyze st)) as (Et & _ & _ & _ & _ & _ & Ei).
    rewrite Ei, Et. cbn. rewrite Hi. cbn.
    intros b [<-|[]]. auto.
  - destruct (live_commit_frame (analyze st)) as (_ & Er & _).
    rewrite Er. cbn. discriminate.
Qed.

Lemma live_reachable_sound (st : State) : reachable st -> live_sound st.
Proof.
  induction 1 as [|st ev Hr IH Hen Hnt].
  - split; cbn; [intros b []|discriminate].
  - destruct (live_reachable_inv st Hr) as (Href & Hd & Hfl). unfold step.
    unfold unmounts in Hnt.
    assert (Hidle : loading st = false -> inflight st = []).
    { intros Hl. destruct (inflight st) as [|? [|? ?]]; [reflexivity| |contradiction].
      destruct Hfl; congruence. }
    destruct ev as [v|e| | | | | |fo]; cbn [handle enabled] in *.
    + unfold textareaDisabled in Hen. apply negb_true_iff in Hen.
      rewrite live_commit_id by (cbn; exact Hd).
      destruct IH as [_ H2]. split; cbn; [rewrite (Hidle Hen); intros b []|exact H2].
    + unfold textareaDisabled in Hen. apply negb_true_iff in Hen.
      unfold handleKeyDown.
      destruct ((key e =? "Enter") && negb (shiftKey e)); cbn [snd];
        [|rewrite live_commit_id by exact Hd; exact IH].
      rewrite Hen, andb_true_r.
      destruct (trim (text st) =? EmptyString) eqn:Ht; cbn [negb];
        [rewrite live_commit_id by exact Hd; exact IH|].
      apply live_sound_analyze; auto.
    + unfold buttonDisabled in Hen.
      apply negb_true_iff, orb_false_iff in Hen as [Hl Ht].
      apply live_sound_analyze; auto.
    + assert (Hl : loading st = false).
      { destruct (inflight st) as [|? [|? ?]]; [apply Hfl| |contradiction].
        destruct Hfl as (_ & _ & He). unfold showsError in Hen.
        rewrite He in Hen. discriminate. }
      destruct (live_commit_frame (resetForm st)) as (_ & Er & _ & _ & _ & _ & Ei).
      split; [rewrite Ei, live_resetForm_inflight, (Hidle Hl); intros b []|].
      rewrite Er. destruct (live_resetForm_frame st) as [_ Hn]. rewrite Hn. discriminate.
    + assert (Hl : loading st = false).
      { destruct (inflight st) as [|? [|? ?]]; [apply Hfl| |contradiction].
        destruct Hfl as (_ & Hres & _). unfold showsResult in Hen.
        rewrite Hres in Hen. discriminate. }
      destruct (live_commit_frame (resetForm st)) as (_ & Er & _ & _ & _ & _ & Ei).
      split; [rewrite Ei, live_resetForm_inflight, (Hidle Hl); intros b []|].
      rewrite Er. destruct (live_resetForm_frame st) as [_ Hn]. rewrite Hn. discriminate.
    + rewrite live_commit_id by exact Hd. exact IH.
    + rewrite live_commit_id by exact Hd. exact IH.
    + unfold analyze_settled in Hnt |- *.
      destruct (inflight st) as [|b [|? ?]] eqn:Ei; [discriminate| |contradiction].
      destruct Hfl as (Hl & Hres & He).
      destruct (tryBody fo) as [err|r] eqn:E.
      * rewrite live_commit_id by (cbn; exact Hd).
        split; cbn; [intros b' []|rewrite Hres; discriminate].
      * destruct (live_tryBody_stored fo r E) as (Hm & Hlow & Hnan).
        set (st0 := setInflight (tl (b :: [])) st) in *.
        destruct (live_commit_frame (setLoading false (setResult (Some r) st0)))
          as (_ & Er & _ & _ & _ & _ & Ei').
        split.
        -- rewrite Ei'. cbn. intros b' [].
        -- rewrite Er. cbn [result setLoading setResult].
           intros r' [= <-]. repeat split; try assumption.
           intros c Hc. apply live_commit_stored; assumption.
Qed.

End LiveSound.

Section PremiumSound.
Import Premium.

(** The render after a body with a mood was stored, when it does not
    throw, sets the gradient the lookup gives. *)
Lemma premium_commit_stored (st : State) (c : string) :
  resultDirty st = true ->
  truthy (getPropOpt (result st) "mood") = true ->
  colorOf (result st) = inr (TStr c) ->
  throws st = false ->
  moodColor (commit st) = VStr c.
Proof.
  intros Hd Hm Hc. unfold throws, commit, render, useEffect_result.
  destruct (renderCard st); [discriminate|].
  rewrite Hd, Hm, Hc. reflexivity.
Qed.

Lemma premium_sound_analyze (st : State) :
  inflight st = [] -> (trim (text st) =? EmptyString) = false ->
  premium_sound (commit (analyze st)).
Proof.
  intros Hi Ht. split.
  - destruct (premium_commit_frame (analyze st)) as (Et & _ & _ & _ & _ & _ & Ei).
    rewrite Ei, Et. cbn. rewrite Hi. cbn.
    intros b [<-|[]]. auto.
  - destruct (premium_commit_frame (analyze st)) as (_ & Er & _).
    rewrite Er. cbn. discriminate.
Qed.

Lemma premium_reachable_sound (st : State) : reachable st -> premium_sound st.
Proof.
  induction 1 as [|st ev Hr IH Hen Hnt].
  - split; cbn; [intros b []|discriminate].
  - destruct (premium_reachable_inv st Hr) as (Href & Hd & Hfl). unfold step.
    unfold unmounts in Hnt.
    assert (Hidle : loading st = false -> inflight st = []).
    { intros Hl. destruct (inflight st) as [|? [|? ?]]; [reflexivity| |contradiction].
      destruct Hfl; congruence. }
    destruct ev as [v|e| | | | |fo]; cbn [handle enabled] in *.
    + unfold textareaDisabled in Hen. apply negb_true_iff in Hen.
      rewrite premium_commit_id by (cbn; exact Hd).
      destruct IH as [_ H2]. split; cbn; [rewrite (Hidle Hen); intros b []|exact H2].
    + unfold textareaDisabled in Hen. apply negb_true_iff in Hen.
      unfold handleKeyDown.
      destruct ((key e =? "Enter") && negb (shiftKey e)); cbn [snd];
        [|rewrite premium_commit_id by exact Hd; exact IH].
      rewrite Hen, andb_true_r.
      destruct (trim (text st) =? EmptyString) eqn:Ht; cbn [negb];
        [rewrite premium_commit_id by exact Hd; exact IH|].
      apply premium_sound_analyze; auto.
    + unfold buttonDisabled in Hen.
      apply negb_true_iff, orb_false_iff in Hen as [Hl Ht].
      apply premium_sound_analyze; auto.
    + assert (Hl : loading st = false).
      { destruct (inflight st) as [|? [|? ?]]; [apply Hfl| |contradiction].
        destruct Hfl as (_ & Hres & _). unfold showsResult in Hen.
        rewrite Hres in Hen. discriminate. }
      destruct (premium_commit_frame (resetForm st)) as (_ & Er & _ & _ & _ & _ & Ei).
      split; [rewrite Ei, premium_resetForm_inflight, (Hidle Hl); intros b []|].
      rewrite Er. destruct (premium_resetForm_frame st) as [_ Hn]. rewrite Hn.
      discriminate.
    + rewrite premium_commit_id by exact Hd. exact IH.
    + rewrite premium_commit_id by exact Hd. exact IH.
    + unfold analyze_settled in Hnt |- *.
      destruct (inflight st) as [|b [|? ?]] eqn:Ei; [discriminate| |contradiction].
      destruct Hfl as (Hl & Hres & He).
      destruct (tryBody fo) as [err|data] eqn:E.
      * rewrite premium_commit_id by (cbn; exact Hd).
        split; cbn; [intros b' []|rewrite Hres; discriminate].
      * set (st1 := setLoading false (setResult data (setInflight (tl (b :: [])) st))) in *.
        destruct (premium_commit_frame st1) as (_ & Er & _ & _ & _ & _ & Ei').
        split; [rewrite Ei'; cbn; intros b' []|].
        rewrite Er. cbn [st1 result setLoading setResult]. intros Hm c Hc.
        apply (premium_commit_stored st1); try assumption.
        cbn. destruct data; try apply orb_true_r. discriminate Hm.
Qed.

End PremiumSound.

Section MockSound.
Import Mock.

(** The render after a mock response was stored. *)
Lemma mock_render_stored (st : State) (r : PredictionResult) :
  (mood r =? EmptyString) = false ->
  let st' := render (setLoading false (setResult (Some r) st)) in
  activeMood st' = mood r /\
  moodColor st' = lookupOr moodColors (mood r) defaultColor.
Proof.
  intros Hm. unfold render, useEffect_result.
  cbn [resultDirty setLoading setResult result].
  rewrite orb_true_r, Hm. split; reflexivity.
Qed.

Lemma mock_nth_response (i : nat) :
  (i <? List.length mockResponses)%nat = true ->
  exists r, nth_error mockResponses i = Some r /\
            In r mockResponses /\ (mood r =? EmptyString) = false.
Proof.
  intros Hi.
  do 5 (destruct i as [|i];
        [eexists; split; [reflexivity|split; [cbn; tauto|reflexivity]]|]).
  discriminate Hi.
Qed.

Lemma mock_sound_analyze (st : State) :
  (trim (text st) =? EmptyString) = false ->
  mock_sound (render (analyze st)).
Proof.
  intros Ht. destruct (mock_render_frame (analyze st)) as (Et & Er & El & _).
  split.
  - rewrite Et. intros _. exact Ht.
  - rewrite Er. cbn. discriminate.
Qed.

Lemma mock_reachable_sound (st : State) : reachable st -> mock_sound st.
Proof.
  induction 1 as [|st ev Hr IH Hen].
  - split; cbn; discriminate.
  - destruct (mock_reachable_inv st Hr) as (Hd & He & Hfl). unfold step.
    destruct ev as [v|e| | |m|i]; cbn [handle enabled] in *.
    + unfold textareaDisabled in Hen. apply negb_true_iff in Hen.
      rewrite mock_render_id by (cbn; exact Hd).
      destruct IH as [_ H2]. split; cbn; [congruence|exact H2].
    + unfold textareaDisabled in Hen. apply negb_true_iff in Hen.
      unfold handleKeyDown.
      destruct ((key e =? "Enter") && negb (shiftKey e)); cbn [snd];
        [|rewrite mock_render_id by exact Hd; exact IH].
      rewrite Hen, andb_true_r.
      destruct (trim (text st) =? EmptyString) eqn:Ht; cbn [negb];
        [rewrite mock_render_id by exact Hd; exact IH|].
      apply mock_sound_analyze; auto.
    + unfold buttonDisabled in Hen.
      apply negb_true_iff, orb_false_iff in Hen as [Hl Ht].
      apply mock_sound_analyze; auto.
    + destruct (mock_render_frame (setResult None st)) as (Et & Er & El & _).
      destruct IH as [H1 _]. split; [rewrite El, Et; exact H1|].
      rewrite Er. cbn. discriminate.
    + apply andb_true_iff in Hen as [Hen Hl]. apply andb_true_iff in Hen as [_ Hres].
      apply negb_true_iff in Hl. unfold showsResult in Hres.
      rewrite mock_render_id by (cbn; exact Hd).
      split; cbn; [congruence|].
      destruct (result st); [discriminate Hres|discriminate].
    + apply andb_true_iff in Hen as [Ht Hi]. apply Nat.ltb_lt in Ht.
      destruct (timers st) as [|[|?]]; [lia| |contradiction].
      destruct (mock_nth_response i Hi) as (r & En & Hin & Hm).
      unfold analyze_settled. rewrite En.
      set (st0 := setTimers (Nat.pred 1) st).
      destruct (mock_render_frame (setLoading false (setResult (Some r) st0)))
        as (_ & Er & El & _).
      split; [rewrite El; cbn; discriminate|].
      rewrite Er. cbn [result setLoading setResult]. intros r' [= <-].
      destruct (mock_render_stored st0 r Hm) as [Ha Hc]. auto.
Qed.

End MockSound.

(** ** One call at a time *)

(** X2. In every reachable state of each variant at most one call of
    [analyze] is pending (one request in flight, one timer in the mock),
    and [loading] is true exactly while it is. *)
Theorem one_call_at_a_time :
  (forall st : Live.State,
      Live.reachable st ->
      (List.length (Live.inflight st) <= 1)%nat /\
      (Live.loading st = true <-> Live.inflight st <> [])) /\
  (forall st : Premium.State,
      Premium.reachable st ->
      (List.length (Premium.inflight st) <= 1)%nat /\
      (Premium.loading st = true <-> Premium.inflight st <> [])) /\
  (forall st : Mock.State,
      Mock.reachable st ->
      (Mock.timers st <= 1)%nat /\
      (Mock.loading st = true <-> Mock.timers st <> O)).
Proof.
  split; [|split].
  - intros st Hr. destruct (live_reachable_inv st Hr) as (_ & _ & Hfl).
    destruct (Live.inflight st) as [|? [|? ?]]; [| |contradiction].
    + destruct Hfl as [Hl _]. rewrite Hl. cbn. split; [lia|]. split; [discriminate|congruence].
    + destruct Hfl as [Hl _]. rewrite Hl. cbn. split; [lia|]. split; [discriminate|reflexivity].
  - intros st Hr. destruct (premium_reachable_inv st Hr) as (_ & _ & Hfl).
    destruct (Premium.inflight st) as [|? [|? ?]]; [| |contradiction].
    + destruct Hfl as [Hl _]. rewrite Hl. cbn. split; [lia|]. split; [discriminate|congruence].
    + destruct Hfl as [Hl _]. rewrite Hl. cbn. split; [lia|]. split; [discriminate|reflexivity].
  - intros st Hr. destruct (mock_reachable_inv st Hr) as (_ & _ & Hfl).
    destruct (Mock.timers st) as [|[|?]]; [| |contradiction].
    + rewrite Hfl. split; [lia|]. split; [discriminate|congruence].
    + destruct Hfl as [Hl _]. rewrite Hl. split; [lia|]. split; [discriminate|reflexivity].
Qed.

(** A second Enter while the first call is pending: still one request. *)
Lemma one_call_at_a_time_witness :
  let enter := {| key := "Enter"; shiftKey := false |} in
  let stL := Live.step (Live.step (Live.step Live.initial Live.Focus)
                                  (Live.Change "rough day"))
                       (Live.KeyDown enter) in
  let stP := Premium.step (Premium.step Premium.initial (Premium.Change "rough day"))
                          Premium.ClickPredict in
  let stM := Mock.step (Mock.step Mock.initial (Mock.Change "rough day"))
                       Mock.ClickAnalyze in
  (Live.reachable stL /\ Live.inflight stL = ["rough day"] /\
   Live.inflight (Live.step stL (Live.KeyDown enter)) = ["rough day"] /\
   (List.length (Live.inflight stL) <= 1)%nat) /\
  (Premium.reachable stP /\ (List.length (Premium.inflight stP) <= 1)%nat) /\
  (Mock.reachable stM /\ (Mock.timers stM <= 1)%nat).
Proof.
  intros enter stL stP stM.
  assert (HL : Live.reachable stL).
  { repeat (apply Live.reach_step; [|reflexivity|reflexivity]). apply Live.reach_initial. }
  assert (HP : Premium.reachable stP).
  { repeat (apply Premium.reach_step; [|reflexivity|reflexivity]). apply Premium.reach_initial. }
  assert (HM : Mock.reachable stM).
  { repeat (apply Mock.reach_step; [|reflexivity]). apply Mock.reach_initial. }
  destruct one_call_at_a_time as (L & P & M).
  split; [|split].
  - split; [exact HL|]. split; [reflexivity|]. split; [reflexivity|].
    exact (proj1 (L stL HL)).
  - split; [exact HP|]. exact (proj1 (P stP HP)).
  - split; [exact HM|]. exact (proj1 (M stM HM)).
Defined.



(** ** The result on the page *)

(** X4. In every reachable state of the live variant a result on the page
    has a mood that is not empty and is its own lowercase form, and a
    score that is a number. *)
Theorem live_result_is_well_formed :
  forall (st : Live.State) (r : Live.PredictionResult),
    Live.reachable st -> Live.result st = Some r ->
    Live.mood r <> EmptyString /\
    toLowerCase (Live.mood r) = Live.mood r /\
    isNaN (Live.score r) = false.
Proof.
  intros st r Hr Hres. destruct (live_reachable_sound st Hr) as [_ H].
  destruct (H r Hres) as (Hm & Hl & Hn & _).
  split; [apply String.eqb_neq; exact Hm|]. auto.
Qed.

(** The body with the mood "NEGATIVE" and the prediction "1.5" (a string). *)
Lemma live_result_is_well_formed_witness :
  let data := JObj [("mood", JStr "NEGATIVE"); ("prediction", JStr "1.5")] in
  let raw := "{" ++ quoted "mood" ++ ":" ++ quoted "NEGATIVE" ++ ","
                 ++ quoted "prediction" ++ ":" ++ quoted "1.5" ++ "}" in
  let st :=
    Live.step (Live.step (Live.step Live.initial (Live.Change "rough day"))
                         Live.ClickPredict)
              (Live.Settled (Resolved (jsonResponse 200 "OK" raw data))) in
  let r := {| Live.mood := "negative";
              Live.score := num_div (parseFloatStr "1.5") four |} in
  Live.reachable st /\ Live.result st = Some r /\
  Live.mood r <> EmptyString /\
  toLowerCase (Live.mood r) = Live.mood r /\
  isNaN (Live.score r) = false.
Proof.
  intros data raw st r.
  assert (H : Live.reachable st).
  { repeat (apply Live.reach_step; [|reflexivity|reflexivity]). apply Live.reach_initial. }
  split; [exact H|]. split; [reflexivity|].
  exact (live_result_is_well_formed st r H eq_refl).
Defined.

(** X5. In every reachable state the gradient of the page is the one of
    the result on it. In the live variant: whenever the lookup of the mood
    of the result in the gradient table gives a string (the entry of the
    mood, or the default gradient for a mood that is a key of nothing),
    the gradient is that string. In the premium variant the same holds for
    the mood of the stored body when it has one. In the mock the gradient
    is the one of the mood of the result and the active mood is that
    mood. *)
Theorem gradient_is_that_of_the_result :
  (forall (st : Live.State) (r : Live.PredictionResult) (c : string),
      Live.reachable st -> Live.result st = Some r ->
      Live.lookupOr Live.moodColors (Live.mood r) Live.defaultColor = TStr c ->
      Live.moodColor st = VStr c) /\
  (forall (st : Premium.State) (c : string),
      Premium.reachable st ->
      truthy (getPropOpt (Premium.result st) "mood") = true ->
      Premium.colorOf (Premium.result st) = inr (TStr c) ->
      Premium.moodColor st = VStr c) /\
  (forall (st : Mock.State) (r : Mock.PredictionResult),
      Mock.reachable st -> Mock.result st = Some r ->
      Mock.activeMood st = Mock.mood r /\
      Mock.moodColor st =
        Mock.lookupOr Mock.moodColors (Mock.mood r) Mock.defaultColor).
Proof.
  split; [|split].
  - intros st r c Hr Hres Hc. destruct (live_reachable_sound st Hr) as [_ H].
    destruct (H r Hres) as (_ & _ & _ & Hg). exact (Hg c Hc).
  - intros st c Hr Hm Hc. destruct (premium_reachable_sound st Hr) as [_ H].
    exact (H Hm c Hc).
  - intros st r Hr Hres. destruct (mock_reachable_sound st Hr) as [_ H].
    destruct (H r Hres) as (_ & Ha & Hc). auto.
Qed.

(** A second analysis replaces the gradient of the first; typing in
    between leaves it. *)
Lemma gradient_is_that_of_the_result_witness :
  let body m := JObj [("mood", JStr m); ("prediction", JNum (of_Z 2))] in
  let raw m := "{" ++ quoted "mood" ++ ":" ++ quoted m ++ ","
                   ++ quoted "prediction" ++ ":2}" in
  let reply m := Live.Settled (Resolved (jsonResponse 200 "OK" (raw m) (body m))) in
  let st1 := Live.step (Live.step (Live.step Live.initial (Live.Change "rough day"))
                                  Live.ClickPredict) (reply "Negative") in
  let st2 := Live.step st1 (Live.Change "fine now") in
  let st3 := Live.step (Live.step st2 Live.ClickPredict) (reply "Cheerful") in
  (Live.reachable st2 /\ Live.moodColor st2 = VStr "from-red-300 to-red-500") /\
  (Live.reachable st3 /\ Live.moodColor st3 = VStr Live.defaultColor).
Proof.
  intros body raw reply st1 st2 st3.
  assert (H2 : Live.reachable st2).
  { repeat (apply Live.reach_step; [|reflexivity|reflexivity]). apply Live.reach_initial. }
  assert (H3 : Live.reachable st3).
  { unfold st3. do 2 (apply Live.reach_step; [|reflexivity|reflexivity]). exact H2. }
  destruct gradient_is_that_of_the_result as (L & _ & _).
  split.
  - split; [exact H2|].
    exact (L st2 {| Live.mood := "negative"; Live.score := num_div (of_Z 2) four |}
             "from-red-300 to-red-500" H2 eq_refl eq_refl).
  - split; [exact H3|].
    exact (L st3 {| Live.mood := "cheerful"; Live.score := num_div (of_Z 2) four |}
             Live.defaultColor H3 eq_refl eq_refl).
Defined.

(** X6. In every reachable state of the mock a result on the page is one
    of the five mock responses: its score lies in [0,1], its mood has an
    emoji and a gradient of its own, so that the page shows neither the
    default emoji by fallback nor the default gradient. *)
Theorem mock_result_is_a_mock_response :
  forall (st : Mock.State) (r : Mock.PredictionResult),
    Mock.reachable st -> Mock.result st = Some r ->
    In r Mock.mockResponses /\
    (num_leb zero (Mock.score r) = true /\ num_leb (Mock.score r) one = true) /\
    assoc (Mock.mood r) Mock.moodEmojis <> None /\
    assoc (Mock.mood r) Mock.moodColors <> None /\
    Mock.moodColor st <> Mock.defaultColor.
Proof.
  intros st r Hr Hres. destruct (mock_reachable_sound st Hr) as [_ H].
  destruct (H r Hres) as (Hin & _ & Hc). rewrite Hc.
  split; [exact Hin|]. clear - Hin.
  cbn in Hin.
  destruct Hin as [<-|[<-|[<-|[<-|[<-|[]]]]]];
    (split; [split; reflexivity|]); repeat split; discriminate.
Qed.

(** The draw 3, the response "relaxed". *)
Lemma mock_result_is_a_mock_response_witness :
  let st := Mock.step (Mock.step (Mock.step Mock.initial (Mock.Change "so so"))
                                 Mock.ClickAnalyze) (Mock.TimerFired 3) in
  Mock.reachable st /\
  Mock.result st = nth_error Mock.mockResponses 3 /\
  Mock.moodColor st = "from-green-300 to-green-500" /\
  Mock.moodColor st <> Mock.defaultColor.
Proof.
  intros st.
  assert (H : Mock.reachable st).
  { repeat (apply Mock.reach_step; [|reflexivity]). apply Mock.reach_initial. }
  split; [exact H|]. split; [reflexivity|]. split; [reflexivity|].
  destruct (mock_result_is_a_mock_response st
              {| Mock.mood := "relaxed"; Mock.score := parseFloatStr "0.89" |}
              H eq_refl) as (_ & _ & _ & _ & Hc).
  exact Hc.
Defined.

(** ** What the page shows *)

(** X7. In every reachable state the page has rendered, so that its
    result card, when there is one, did not throw, and the live page shows
    exactly one of: the spinner, the result card, the error alert, the
    "How it works" block. The premium page and the mock show exactly one
    of the spinner, the result card and their last block; on the premium
    page the error alert comes with the last block, and the mock never
    shows an error alert. *)
Theorem page_shows_one_block :
  (forall st : Live.State,
      Live.reachable st ->
      Live.renderCard st = inr tt /\
      countTrue [Live.loading st; Live.showsResult st; Live.showsError st;
                 live_howItWorks st] = 1%nat) /\
  (forall st : Premium.State,
      Premium.reachable st ->
      Premium.renderCard st = inr tt /\
      countTrue [Premium.loading st; Premium.showsResult st;
                 premium_howItWorks st] = 1%nat /\
      (premium_showsError st = true -> premium_howItWorks st = true)) /\
  (forall st : Mock.State,
      Mock.reachable st ->
      countTrue [Mock.loading st; Mock.showsResult st; mock_recentMoods st] = 1%nat /\
      mock_showsError st = false).
Proof.
  split; [|split].
  - intros st Hr. split; [exact (live_reachable_card st Hr)|].
    destruct (live_reachable_inv st Hr) as (_ & _ & Hfl).
    unfold live_howItWorks, Live.showsResult, Live.showsError.
    destruct (Live.inflight st) as [|? [|? ?]]; [| |contradiction].
    + destruct Hfl as [Hl [Hn|He]]; rewrite Hl.
      * rewrite Hn. destruct (Live.error st =? EmptyString); reflexivity.
      * rewrite He. destruct (Live.result st); reflexivity.
    + destruct Hfl as (Hl & Hn & He). rewrite Hl, Hn, He. reflexivity.
  - intros st Hr. split; [exact (premium_reachable_card st Hr)|].
    destruct (premium_reachable_inv st Hr) as (_ & _ & Hfl).
    unfold premium_howItWorks, premium_showsError, Premium.showsResult.
    destruct (Premium.inflight st) as [|? [|? ?]]; [| |contradiction].
    + destruct Hfl as [Hl [Hn|He]]; rewrite Hl.
      * rewrite Hn. split; reflexivity.
      * rewrite He. split; [destruct (truthy (Premium.result st)); reflexivity|].
        discriminate.
    + destruct Hfl as (Hl & Hn & He). rewrite Hl, Hn, He. split; [reflexivity|].
      discriminate.
  - intros st Hr. destruct (mock_reachable_inv st Hr) as (_ & He & Hfl).
    unfold mock_recentMoods, mock_showsError, Mock.showsResult. rewrite He.
    split; [|reflexivity].
    destruct (Mock.timers st) as [|[|?]]; [| |contradiction].
    + rewrite Hfl. destruct (Mock.result st); reflexivity.
    + destruct Hfl as [Hl Hn]. rewrite Hl, Hn. reflexivity.
Qed.

(** After a status 500: the live page shows the alert alone, the premium
    page the alert and its last block. *)
Lemma page_shows_one_block_witness :
  let bad := Resolved (textResponse 500 "Internal Server Error" "boom") in
  let stL := Live.step (Live.step (Live.step Live.initial (Live.Change "so so"))
                                  Live.ClickPredict) (Live.Settled bad) in
  let stP := Premium.step (Premium.step (Premium.step Premium.initial
                                                      (Premium.Change "so so"))
                                        Premium.ClickPredict) (Premium.Settled bad) in
  let stM := Mock.step (Mock.step Mock.initial (Mock.Change "so so"))
                       Mock.ClickAnalyze in
  (Live.showsError stL = true /\
   countTrue [Live.loading stL; Live.showsResult stL; Live.showsError stL;
              live_howItWorks stL] = 1%nat) /\
  (premium_showsError stP = true /\ premium_howItWorks stP = true /\
   countTrue [Premium.loading stP; Premium.showsResult stP;
              premium_howItWorks stP] = 1%nat) /\
  (Mock.loading stM = true /\
   countTrue [Mock.loading stM; Mock.showsResult stM; mock_recentMoods stM] = 1%nat).
Proof.
  intros bad stL stP stM.
  assert (HL : Live.reachable stL).
  { repeat (apply Live.reach_step; [|reflexivity|reflexivity]). apply Live.reach_initial. }
  assert (HP : Premium.reachable stP).
  { repeat (apply Premium.reach_step; [|reflexivity|reflexivity]).
    apply Premium.reach_initial. }
  assert (HM : Mock.reachable stM).
  { repeat (apply Mock.reach_step; [|reflexivity]). apply Mock.reach_initial. }
  destruct page_shows_one_block as (L & P & M).
  split; [|split].
  - split; [reflexivity|]. exact (proj2 (L stL HL)).
  - destruct (P stP HP) as (_ & A & B). split; [reflexivity|].
    split; [exact (B eq_refl)|exact A].
  - split; [reflexivity|]. exact (proj1 (M stM HM)).
Defined.

(** ** The sample moods of the mock *)

Lemma trim_head_kept (c : ascii) (s : string) :
  isWhiteSpace c = false -> (trim (String c s) =? EmptyString) = false.
Proof.
  intros Hc. unfold trim. cbn [trimStart]. rewrite Hc. cbn [trimEnd].
  destruct (trimEnd s); [rewrite Hc|]; reflexivity.
Qed.

(** X8. In every reachable state of the mock, a click on a sample mood
    fills the text with a sentence that is not blank, so that the submit
    button is enabled right after it, makes the mood the active one and
    sets its gradient, which is never the default one; no result is on
    the page and no call is started. *)
Theorem mock_sample_fills_the_form :
  forall (st : Mock.State) (m : string),
    Mock.reachable st -> Mock.enabled st (Mock.ClickSample m) = true ->
    let st' := Mock.step st (Mock.ClickSample m) in
    Mock.text st' = "I'm feeling " ++ m ++ " today" /\
    Mock.buttonDisabled st' = false /\
    Mock.activeMood st' = m /\
    Mock.moodColor st' = Mock.lookupOr Mock.moodColors m Mock.defaultColor /\
    Mock.moodColor st' <> Mock.defaultColor /\
    Mock.result st' = None /\ Mock.timers st' = Mock.timers st.
Proof.
  intros st m Hr Hen st'.
  destruct (mock_reachable_inv st Hr) as (Hd & _ & _).
  cbn [Mock.enabled] in Hen.
  apply andb_true_iff in Hen as [Hen Hl]. apply andb_true_iff in Hen as [Hm Hres].
  apply negb_true_iff in Hl.
  assert (Hn : Mock.result st = None).
  { unfold Mock.showsResult in Hres. destruct (Mock.result st); [discriminate|reflexivity]. }
  assert (E : st' = Mock.pickSample m st).
  { subst st'. unfold Mock.step. cbn [Mock.handle]. apply mock_render_id. exact Hd. }
  rewrite E. split; [reflexivity|]. split.
  { unfold Mock.buttonDisabled. cbn -[trim append]. rewrite Hl.
    change ("I'm feeling " ++ m ++ " today")
      with (String "I" ("'m feeling " ++ m ++ " today")).
    apply trim_head_kept. reflexivity. }
  split; [reflexivity|]. split; [reflexivity|]. split; [|auto].
  cbn -[Mock.lookupOr]. cbn in Hm.
  repeat match type of Hm with
         | (?a || ?b)%bool = true =>
             apply orb_true_iff in Hm as [Hm|Hm];
             [apply String.eqb_eq in Hm; subst m; discriminate|]
         end.
  discriminate Hm.
Qed.

(** The sample "playful" on the first page, then Enter. *)
Lemma mock_sample_fills_the_form_witness :
  let st' := Mock.step Mock.initial (Mock.ClickSample "playful") in
  Mock.text st' = "I'm feeling playful today" /\
  Mock.buttonDisabled st' = false /\
  Mock.activeMood st' = "playful" /\
  Mock.moodColor st' = "from-cyan-300 to-cyan-500" /\
  Mock.enabled st' Mock.ClickAnalyze = true.
Proof.
  intros st'.
  destruct (mock_sample_fills_the_form Mock.initial "playful" Mock.reach_initial eq_refl)
    as (A & B & C & D & _).
  split; [exact A|]. split; [exact B|]. split; [exact C|]. split; [exact D|].
  reflexivity.
Defined.

(** ** A mood that is not a string *)

(** X9. A body whose [mood] is a boolean, a number, an array or an object
    is handed to [setResult] by the premium variant without an error; the
    render that follows throws in the emoji lookup of the result card, and
    the page is unmounted. The live variant turns the same body down and
    shows an error message. *)
Theorem premium_stores_what_live_turns_down :
  forall (props : list (string * JValue)) (m : JValue) (res : Response),
    assoc "mood" props = Some m -> hasNoToLowerCase m = true ->
    ok res = true -> res_json res = inr (JObj props) ->
    (forall st : Premium.State,
        let st' := Premium.analyze_settled (Resolved res) (Premium.analyze st) in
        Premium.error st' = EmptyString /\
        Premium.result st' = JObj props /\
        Premium.render st' = inl (notAFunction "result.mood?.toLowerCase") /\
        Premium.unmounts st (Premium.Settled (Resolved res)) = true) /\
    (forall st : Live.State,
        let st' := Live.analyze_settled (Resolved res) (Live.analyze st) in
        Live.result st' = None /\ Live.showsError st' = true /\
        Live.unmounts (Live.analyze st) (Live.Settled (Resolved res)) = false).
Proof.
  intros props m res Hm Hno Hok Hj.
  assert (Hc : forall st : Premium.State,
             Premium.result st = JObj props ->
             Premium.render st = inl (notAFunction "result.mood?.toLowerCase")).
  { intros st Hr.
    unfold Premium.render, Premium.renderCard, Premium.emojiShown, Premium.emojiKey.
    rewrite Hr. unfold getPropOpt. cbn [getProp truthy]. rewrite Hm.
    destruct m; try discriminate Hno; reflexivity. }
  split.
  - intros st st'.
    destruct (premium_analyze_outcome (Resolved res) st) as [_ H]. fold st' in H.
    cbn [Premium.tryBody] in H. rewrite Hok, Hj in H. destruct H as [Hr He].
    split; [exact He|]. split; [exact Hr|]. split; [exact (Hc st' Hr)|].
    unfold Premium.unmounts, Premium.throws. rewrite Hc; [reflexivity|].
    cbn [Premium.handle]. unfold Premium.analyze_settled.
    cbn [Premium.tryBody]. rewrite Hok, Hj. reflexivity.
  - intros st st'.
    destruct (live_analyze_outcome (Resolved res) st) as [_ H]. fold st' in H.
    rewrite (live_tryBody_ok res (JObj props) Hok Hj) in H.
    pose proof (live_normalize_spec (JObj props)) as Hn.
    assert (R : live_rejects (JObj props) = true).
    { unfold live_rejects, getPropOpt. cbn [getProp]. rewrite Hm.
      destruct m; try discriminate Hno; reflexivity. }
    rewrite R in Hn. destruct Hn as (e & En & Hne). rewrite En in H.
    destruct H as [Hr He]. split; [exact Hr|]. split.
    + unfold Live.showsError. rewrite He.
      apply negb_true_iff, String.eqb_neq. exact Hne.
    + apply (live_error_renders (Resolved res) e); [reflexivity|].
      rewrite (live_tryBody_ok res (JObj props) Hok Hj). exact En.
Qed.

(** The body with the mood 5 and the score 1. *)
Lemma premium_stores_what_live_turns_down_witness :
  let props := [("mood", JNum (of_Z 5)); ("score", JNum one)] in
  let raw := "{" ++ quoted "mood" ++ ":5," ++ quoted "score" ++ ":1}" in
  let res := jsonResponse 200 "OK" raw (JObj props) in
  let sentP := Premium.step (Premium.step Premium.initial (Premium.Change "so so"))
                            Premium.ClickPredict in
  let stP := Premium.analyze_settled (Resolved res)
               (Premium.analyze (Premium.setText "so so" Premium.initial)) in
  let stL := Live.analyze_settled (Resolved res)
               (Live.analyze (Live.setText "so so" Live.initial)) in
  (Premium.error stP = EmptyString /\ Premium.result stP = JObj props /\
   Premium.render stP = inl (notAFunction "result.mood?.toLowerCase")) /\
  (Premium.reachable sentP /\
   Premium.unmounts sentP (Premium.Settled (Resolved res)) = true) /\
  (Live.result stL = None /\
   Live.error stL = "Unexpected response format from backend").
Proof.
  intros props raw res sentP stP stL.
  destruct (premium_stores_what_live_turns_down props (JNum (of_Z 5)) res
              eq_refl eq_refl eq_refl eq_refl) as [P L].
  split; [|split].
  - destruct (P (Premium.setText "so so" Premium.initial)) as (A & B & C & _). auto.
  - split; [|exact (proj2 (proj2 (proj2 (P sentP))))].
    repeat (apply Premium.reach_step; [|reflexivity|reflexivity]).
    apply Premium.reach_initial.
  - split; [exact (proj1 (L (Live.setText "so so" Live.initial)))|reflexivity].
Defined.

(** ** Labels that are keys of [Object.prototype] *)

(** The label "Constructor" after the red gradient, in the live variant:
    the colour lookup gives the function [Object], which runs as an
    updater and wraps the gradient in a String object, so that the class
    text stays the red one; the emoji lookup gives the same function, and
    the card shows no emoji. *)
Lemma live_label_constructor :
  let body m := JObj [("mood", JStr m); ("prediction", JNum (of_Z 2))] in
  let raw m := "{" ++ quoted "mood" ++ ":" ++ quoted m ++ ","
                   ++ quoted "prediction" ++ ":2}" in
  let reply m := Live.Settled (Resolved (jsonResponse 200 "OK" (raw m) (body m))) in
  let st1 := Live.step (Live.step (Live.step Live.initial (Live.Change "rough day"))
                                  Live.ClickPredict) (reply "Negative") in
  let st2 := Live.step st1 Live.ClickPredict in
  let st3 := Live.step st2 (reply "Constructor") in
  let r := {| Live.mood := "constructor"; Live.score := num_div (of_Z 2) four |} in
  Live.moodColor st1 = VStr "from-red-300 to-red-500" /\
  Live.unmounts st2 (reply "Constructor") = false /\
  Live.result st3 = Some r /\
  Live.lookupOr Live.moodColors (Live.colorKey r) Live.defaultColor =
    TMember MConstructor /\
  Live.moodColor st3 = VStrObj "from-red-300 to-red-500" /\
  classText (Live.moodColor st3) = "from-red-300 to-red-500" /\
  Live.emojiShown r = TMember MConstructor.
Proof. vm_compute. repeat split. Qed.

(** The label "__PROTO__" in the live variant: it is stored as
    "__proto__", the emoji lookup gives [Object.prototype], which is no
    child of an element, and the render throws. *)
Lemma live_label_proto :
  let data := JObj [("mood", JStr "__PROTO__"); ("prediction", JNum (of_Z 2))] in
  let raw := "{" ++ quoted "mood" ++ ":" ++ quoted "__PROTO__" ++ ","
                 ++ quoted "prediction" ++ ":2}" in
  let fo := Resolved (jsonResponse 200 "OK" raw data) in
  let st := Live.step (Live.step Live.initial (Live.Change "rough day"))
                      Live.ClickPredict in
  let r := {| Live.mood := "__proto__"; Live.score := num_div (of_Z 2) four |} in
  Live.tryBody fo = inr r /\
  Live.emojiShown r = TMember MProto /\
  Live.render (Live.handle st (Live.Settled fo)) = inl invalidChild /\
  Live.unmounts st (Live.Settled fo) = true.
Proof. vm_compute. repeat split. Qed.

(** The labels "toString", "isPrototypeOf" and "valueOf" in the premium
    variant, whose colour lookup takes the label as received: the first
    two leave [[object Undefined]] and [false] as the gradient, the third
    throws in the render that runs it as an updater. *)
Lemma premium_label_members :
  let body m := JObj [("mood", JStr m); ("score", JNum one)] in
  let raw m := "{" ++ quoted "mood" ++ ":" ++ quoted m ++ ","
                   ++ quoted "score" ++ ":1}" in
  let reply m := Premium.Settled (Resolved (jsonResponse 200 "OK" (raw m) (body m))) in
  let st := Premium.step (Premium.step Premium.initial (Premium.Change "rough day"))
                         Premium.ClickPredict in
  (Premium.unmounts st (reply "toString") = false /\
   Premium.moodColor (Premium.step st (reply "toString")) = VStr "[object Undefined]") /\
  (Premium.unmounts st (reply "isPrototypeOf") = false /\
   Premium.moodColor (Premium.step st (reply "isPrototypeOf")) = VFalse /\
   classText (Premium.moodColor (Premium.step st (reply "isPrototypeOf"))) = "false") /\
  (Premium.render (Premium.handle st (reply "valueOf")) = inl thisIsUndefined /\
   Premium.unmounts st (reply "valueOf") = true).
Proof. vm_compute. repeat split. Qed.

(** ** The two tables *)

Lemma assoc_none_iff {A : Type} (k : string) (l : list (string * A)) :
  assoc k l = None <-> ~ In k (map fst l).
Proof.
  induction l as [|[k' v] l IH]; cbn; [tauto|].
  destruct (k =? k') eqn:E.
  - apply String.eqb_eq in E. subst. split; [discriminate|tauto].
  - apply String.eqb_neq in E. rewrite IH. split; [intros H [H'|H']; congruence|tauto].
Qed.

(** X10. In the live variant and in the mock the emoji table and the
    gradient table have the same labels: a mood has an emoji of its own
    exactly when it has a gradient of its own. In the premium variant the
    two tables share the label "neutral" only. *)
Theorem tables_have_the_same_labels :
  (forall k : string,
      assoc k Live.moodEmojis = None <-> assoc k Live.moodColors = None) /\
  (forall k : string,
      assoc k Mock.moodEmojis = None <-> assoc k Mock.moodColors = None) /\
  (forall k : string,
      assoc k Premium.moodEmojis <> None /\ assoc k Premium.moodColors <> None <->
      k = "neutral").
Proof.
  split; [|split]; intros k.
  - rewrite !assoc_none_iff. cbn. tauto.
  - rewrite !assoc_none_iff. cbn. tauto.
  - split.
    + intros [He Hc].
      destruct (assoc k Premium.moodEmojis) eqn:E1; [clear He|congruence].
      destruct (assoc k Premium.moodColors) eqn:E2; [clear Hc|congruence].
      cbn in E1, E2.
      repeat match type of E1 with
             | (if k =? ?x then _ else _) = _ =>
                 destruct (k =? x) eqn:?
             end; try discriminate E1;
        repeat match goal with
               | H : (k =? _) = true |- _ => apply String.eqb_eq in H; subst k
               end; try reflexivity; cbn in E2; discriminate E2.
    + intros ->. split; discriminate.
Qed.

(** ** Reset and the first page *)

(** X11. In every reachable state of the live and premium variants, a
    click on a reset button gives back the first page but for the gradient,
    which stays, and the focus, which the textarea takes: no call is
    pending and every hook but [moodColor] has its first value. *)
Theorem reset_gives_the_first_page :
  (forall (st : Live.State) (ev : Live.Event),
      Live.reachable st ->
      ev = Live.ClickTryAgain \/ ev = Live.ClickAnalyzeAnother ->
      Live.enabled st ev = true ->
      Live.step st ev =
        Live.setFocused true (Live.setMoodColor (Live.moodColor st) Live.initial)) /\
  (forall st : Premium.State,
      Premium.reachable st ->
      Premium.enabled st Premium.ClickAnalyzeAnother = true ->
      Premium.step st Premium.ClickAnalyzeAnother =
        Premium.setFocused true
          (Premium.setMoodColor (Premium.moodColor st) Premium.initial)).
Proof.
  split.
  - intros st ev Hr Hev Hen.
    destruct (live_reachable_inv st Hr) as (Href & Hd & Hfl).
    assert (E : Live.step st ev = Live.commit (Live.resetForm st))
      by (destruct Hev as [-> | ->]; reflexivity).
    assert (Hidle : Live.inflight st = [] /\ Live.loading st = false).
    { destruct (Live.inflight st) as [|? [|? ?]]; [split; [reflexivity|apply Hfl]|
                                                   |contradiction].
      destruct Hfl as (_ & Hres & He).
      destruct Hev as [-> | ->]; cbn in Hen.
      - unfold Live.showsError in Hen. rewrite He in Hen. discriminate.
      - unfold Live.showsResult in Hen. rewrite Hres in Hen. discriminate. }
    destruct Hidle as [Hi Hl]. rewrite E.
    destruct st as [t r l e c ref f i d]. cbn in *. subst.
    unfold Live.resetForm, Live.focus, Live.commit, Live.render. cbn.
    destruct r; reflexivity.
  - intros st Hr Hen.
    destruct (premium_reachable_inv st Hr) as (Href & Hd & Hfl).
    assert (Hidle : Premium.inflight st = [] /\ Premium.loading st = false).
    { destruct (Premium.inflight st) as [|? [|? ?]]; [split; [reflexivity|apply Hfl]|
                                                      |contradiction].
      destruct Hfl as (_ & Hres & He). cbn in Hen.
      unfold Premium.showsResult in Hen. rewrite Hres in Hen. discriminate. }
    destruct Hidle as [Hi Hl]. unfold Premium.step. cbn [Premium.handle].
    destruct st as [t r l e c ref f i d]. cbn in *. subst.
    unfold Premium.resetForm, Premium.focus, Premium.commit, Premium.render. cbn.
    destruct r; reflexivity.
Qed.

(** Submit, result, reset: the first page again, with the red gradient. *)
Lemma reset_gives_the_first_page_witness :
  let data := JObj [("mood", JStr "negative"); ("prediction", JNum (of_Z 1))] in
  let raw := "{" ++ quoted "mood" ++ ":" ++ quoted "negative" ++ ","
                 ++ quoted "prediction" ++ ":1}" in
  let fo := Resolved (jsonResponse 200 "OK" raw data) in
  let stL := Live.step (Live.step (Live.step Live.initial (Live.Change "rough day"))
                                  Live.ClickPredict) (Live.Settled fo) in
  let stP := Premium.step (Premium.step (Premium.step Premium.initial
                                                      (Premium.Change "rough day"))
                                        Premium.ClickPredict) (Premium.Settled fo) in
  Live.step stL Live.ClickAnalyzeAnother =
    Live.setFocused true (Live.setMoodColor "from-red-300 to-red-500" Live.initial) /\
  Premium.step stP Premium.ClickAnalyzeAnother =
    Premium.setFocused true
      (Premium.setMoodColor Premium.defaultColor Premium.initial).
Proof.
  intros data raw fo stL stP.
  assert (HL : Live.reachable stL).
  { repeat (apply Live.reach_step; [|reflexivity|reflexivity]). apply Live.reach_initial. }
  assert (HP : Premium.reachable stP).
  { repeat (apply Premium.reach_step; [|reflexivity|reflexivity]). apply Premium.reach_initial. }
  destruct reset_gives_the_first_page as [L P].
  split.
  - exact (L stL Live.ClickAnalyzeAnother HL (or_intror eq_refl) eq_refl).
  - exact (P stP HP eq_refl).
Defined.
